(** * Lumina inventory dashboard: catalog store, statistics, table queries

    A shallow embedding of the catalog handlers and dashboard statistics of
    [src/App.tsx] and of the filtering, selection and CSV export logic of the
    [InventoryTable] component, together with the properties the
    specification states about them. The second part of the development
    covers more of the code: the category chart, the theme, the sparkline,
    the product form and the result handling of the text generation service.

    Modelling conventions.
    - A [number] held in a record is the rational it denotes ([Q]);
      comparisons are exact on these. [NaN] and the infinities do not occur
      in a record (the product form replaces [NaN] by [0] before a product is
      saved). The total value of the catalog is computed as the code
      computes it, in binary64 floating point, on the doubles that the
      numbers of the records are ([Num.toDouble]); it may be infinite.
    - A JavaScript [string] is a [string] of 8-bit characters, read as the
      UTF-16 code units below 256 (Latin-1); [toLowerCase] lower-cases the
      letters [A]..[Z] and the accented capital letters of that range.
    - A [Set<string>] is a [gset string]; [Array.from] of it is [elements].
    - React state is passed explicitly: a handler that calls
      [setProducts (prev => f prev)] is the function [f] on the catalog, and
      a table handler maps the pair of catalog and table state to the next
      pair. The answer of [window.confirm] is an input of the handler. *)

From Stdlib Require Import Ascii String List QArith Lqa.
From Stdlib Require Floats.
From stdpp Require Import base decidable option list strings pretty gmap sets.

Local Open Scope string_scope.
Local Open Scope list_scope.

Local Set Warnings "-clear-no-such-hyp".

(** ** Characters and strings *)

Module Str.

Definition dquote : ascii := "034"%char.
Definition newline : ascii := "010"%char.
Definition letterT : ascii := "T"%char.

Definition char (c : ascii) : string := String c EmptyString.

(** [String.prototype.toLowerCase] on one code unit below 256: the capital
    letters [A]..[Z] (65..90) and the accented capitals of Latin-1
    (192..222 without the multiplication sign 215) move up by 32; every
    other character stays. *)
Definition lower_ascii (c : ascii) : ascii :=
  let n := nat_of_ascii c in
  if ((Nat.leb 65 n && Nat.leb n 90)
      || (Nat.leb 192 n && Nat.leb n 222 && negb (Nat.eqb n 215)))%bool
  then ascii_of_nat (n + 32) else c.

(** Every character. *)
Definition allChars : list ascii := map ascii_of_nat (seq 0 256).

Fixpoint toLowerCase (s : string) : string :=
  match s with
  | EmptyString => EmptyString
  | String c s' => String (lower_ascii c) (toLowerCase s')
  end.

(** [hay.startsWith(needle)]. *)
Fixpoint startsWith (needle hay : string) : bool :=
  match needle, hay with
  | EmptyString, _ => true
  | String _ _, EmptyString => false
  | String a n', String b h' => Ascii.eqb a b && startsWith n' h'
  end.

(** [hay.includes(needle)]: [needle] occurs at some offset of [hay]. *)
Fixpoint includes (hay needle : string) : bool :=
  startsWith needle hay ||
  match hay with
  | EmptyString => false
  | String _ h' => includes h' needle
  end.

(** [s.replace(/c/g, by)]: every occurrence of the character [c] is
    replaced by the string [by]. *)
Fixpoint replaceAll (c : ascii) (by_ : string) (s : string) : string :=
  match s with
  | EmptyString => EmptyString
  | String a s' =>
      if Ascii.eqb a c then by_ ++ replaceAll c by_ s'
      else String a (replaceAll c by_ s')
  end.

(** [parts.join(sep)]. *)
Fixpoint join (sep : string) (parts : list string) : string :=
  match parts with
  | [] => EmptyString
  | [x] => x
  | x :: rest => x ++ sep ++ join sep rest
  end.

(** [s.split(c)[0]]: the text before the first occurrence of [c]. *)
Fixpoint beforeFirst (c : ascii) (s : string) : string :=
  match s with
  | EmptyString => EmptyString
  | String a s' => if Ascii.eqb a c then EmptyString else String a (beforeFirst c s')
  end.

(** Number of occurrences of a character. *)
Fixpoint occurrences (c : ascii) (s : string) : nat :=
  match s with
  | EmptyString => 0
  | String a s' => (if Ascii.eqb a c then 1 else 0) + occurrences c s'
  end.

End Str.

(** ** Numbers *)

Module Num.

(** [a < b], [a === b], [a > b], [a >= b] on numbers. *)
Definition ltb (a b : Q) : bool := negb (Qle_bool b a).
Definition eqb (a b : Q) : bool := Qeq_bool a b.
Definition gtb (a b : Q) : bool := ltb b a.
Definition geb (a b : Q) : bool := Qle_bool b a.

(** [Math.min] and [Math.max] of two numbers. *)
Definition min (a b : Q) : Q := if Qle_bool a b then a else b.
Definition max (a b : Q) : Q := if Qle_bool a b then b else a.

(** [x || d] on numbers: [0] counts as false. *)
Definition orElse (x d : Q) : Q := if Qeq_bool x 0 then d else x.

(** The double that a number is: the binary64 value nearest to the rational
    (ties to even), which is the rational itself when it is the value of a
    double, and the double a decimal literal denotes when it is that
    decimal. *)
Definition toDouble (q : Q) : PrimFloat.float :=
  match Qnum q with
  | Z0 => PrimFloat.zero
  | Zpos n =>
      FloatOps.SF2Prim
        (SpecFloat.SFdiv FloatOps.prec FloatOps.emax
           (SpecFloat.S754_finite false n 0)
           (SpecFloat.S754_finite false (Qden q) 0))
  | Zneg n =>
      FloatOps.SF2Prim
        (SpecFloat.SFdiv FloatOps.prec FloatOps.emax
           (SpecFloat.S754_finite true n 0)
           (SpecFloat.S754_finite false (Qden q) 0))
  end.

End Num.

(** ** Types ([types.ts]) *)

Inductive Category : Type :=
  | ELECTRONICS
  | FURNITURE
  | CLOTHING
  | OFFICE
  | OTHER.

(** The string value of each enumeration member. *)
Definition Category_value (c : Category) : string :=
  match c with
  | ELECTRONICS => "Electronics"
  | FURNITURE => "Furniture"
  | CLOTHING => "Clothing"
  | OFFICE => "Office Supplies"
  | OTHER => "Other"
  end.

Record Product : Type := mkProduct {
  id : string;
  name : string;
  sku : string;
  category : Category;
  price : Q;
  quantity : Q;
  description : string;
  lastUpdated : string;
  history : option (list Q)
}.

Record DashboardStats : Type := mkStats {
  totalProducts : nat;
  totalValue : PrimFloat.float;
  lowStockItems : nat;
  outOfStockItems : nat
}.

(** [{ ...p, quantity: q }] *)
Definition with_quantity (p : Product) (q : Q) : Product :=
  {| id := id p; name := name p; sku := sku p; category := category p;
     price := price p; quantity := q; description := description p;
     lastUpdated := lastUpdated p; history := history p |}.

(** [ids.includes(x)] on an array of strings. *)
Definition array_includes (ids : list string) (x : string) : bool :=
  existsb (String.eqb x) ids.

(** ** The application ([App.tsx]) *)

Module App.

(** The mock catalog. [now] is the value of [new Date().toISOString()] when
    the module is loaded. *)
Definition INITIAL_PRODUCTS (now : string) : list Product :=
  [ {| id := "1"; name := "Ergo Chair Ultra"; sku := "FUR-001";
       category := FURNITURE; price := 34999 # 100; quantity := 15;
       description := "High-end ergonomic office chair with lumbar support.";
       lastUpdated := now;
       history := Some [12; 15; 13; 18; 15; 20; 15]%Q |};
    {| id := "2"; name := "Wireless Mech Keyboard"; sku := "ELE-045";
       category := ELECTRONICS; price := 12950 # 100; quantity := 4;
       description := "Mechanical keyboard with RGB and brown switches.";
       lastUpdated := now;
       history := Some [8; 6; 5; 7; 5; 4; 4]%Q |};
    {| id := "3"; name := "Standing Desk Frame"; sku := "FUR-022";
       category := FURNITURE; price := 299; quantity := 8;
       description := "Dual motor electric standing desk frame.";
       lastUpdated := now;
       history := Some [5; 8; 12; 10; 9; 8; 8]%Q |};
    {| id := "4"; name := "USB-C Docking Station"; sku := "ELE-102";
       category := ELECTRONICS; price := 8999 # 100; quantity := 42;
       description := "12-in-1 docking station for laptops.";
       lastUpdated := now;
       history := Some [30; 35; 32; 40; 45; 42; 42]%Q |};
    {| id := "5"; name := "Cotton Hoodie"; sku := "CLO-552";
       category := CLOTHING; price := 45; quantity := 120;
       description := "Premium heavyweight cotton hoodie.";
       lastUpdated := now;
       history := Some [150; 140; 135; 130; 125; 120; 120]%Q |} ].

(** The callbacks [p => p.quantity < 10] and [p => p.quantity === 0]. *)
Definition isLow (p : Product) : bool := Num.ltb (quantity p) 10.
Definition isOut (p : Product) : bool := Num.eqb (quantity p) 0.

(** The memoised [stats] object, as a function of [products]. *)
Definition stats (products : list Product) : DashboardStats :=
  {| totalProducts := length products;
     totalValue :=
       fold_left
         (fun acc p =>
            PrimFloat.add acc
              (PrimFloat.mul (Num.toDouble (price p)) (Num.toDouble (quantity p))))
         products PrimFloat.zero;
     lowStockItems := length (List.filter isLow products);
     outOfStockItems := length (List.filter isOut products) |}.

(** [handleSaveProduct]: the new catalog; [editingProduct] is the product
    under edit, if any. *)
Definition handleSaveProduct (editingProduct : option Product)
    (product : Product) (prev : list Product) : list Product :=
  match editingProduct with
  | Some _ =>
      map (fun p => if String.eqb (id p) (id product) then product else p) prev
  | None => prev ++ [product]
  end.

(** [handleDeleteProduct]; [confirmed] is the answer of [window.confirm]. *)
Definition handleDeleteProduct (confirmed : bool) (id_ : string)
    (prev : list Product) : list Product :=
  if confirmed then List.filter (fun p => negb (String.eqb (id p) id_)) prev
  else prev.

(** [handleBatchDelete]. *)
Definition handleBatchDelete (confirmed : bool) (ids : list string)
    (prev : list Product) : list Product :=
  if confirmed then List.filter (fun p => negb (array_includes ids (id p))) prev
  else prev.

(** [handleBatchLowStock]. *)
Definition handleBatchLowStock (ids : list string)
    (prev : list Product) : list Product :=
  map (fun p => if array_includes ids (id p) then with_quantity p 5 else p) prev.

(** *** Category chart data *)

(** [counts[key] = (counts[key] || 0) + 1] on an object used as a map; the
    keys of an object keep the order in which they were first written. *)
Fixpoint bump (key : string) (counts : list (string * nat)) : list (string * nat) :=
  match counts with
  | [] => [(key, 0 + 1)]
  | (k, v) :: rest =>
      if String.eqb k key then (k, (if Nat.eqb v 0 then 0 else v) + 1) :: rest
      else (k, v) :: bump key rest
  end.

(** The object [counts] after the [forEach] loop. *)
Definition categoryCounts (products : list Product) : list (string * nat) :=
  fold_left (fun counts p => bump (Category_value (category p)) counts) products [].

(** [categoryData]: one [{ name, value }] pair per key of [counts]. *)
Definition categoryData (products : list Product) : list (string * nat) :=
  map (fun key_value => (fst key_value, snd key_value)) (categoryCounts products).

(** *** Low stock banner *)

Definition LOW_STOCK_THRESHOLD : nat := 1.

(** The condition under which the persistent banner is rendered. *)
Definition showsLowStockBanner (products : list Product) : bool :=
  Nat.ltb LOW_STOCK_THRESHOLD (lowStockItems (stats products)).

(** The data of the bar chart, [products.slice(0, 8)]. *)
Definition barChartData (products : list Product) : list Product :=
  firstn 8 products.

(** *** Theme *)

(** What the theme code reads and writes in the browser: [localStorage] and
    the class list of the document element. *)
Record Browser : Type := mkBrowser {
  localStorage : gmap string string;
  classList : gset string
}.

(** A string used as a condition is true unless it is empty. *)
Definition truthy (s : string) : bool := negb (String.eqb s "").

(** The initialiser of [isDarkMode]. [hasWindow] tells whether [window] is
    defined, [prefersDark] is the answer of the colour scheme media query. *)
Definition initialIsDarkMode (hasWindow : bool) (b : Browser) (prefersDark : bool) : bool :=
  if hasWindow then
    match localStorage b !! "lumina-theme" with
    | Some saved => if truthy saved then String.eqb saved "dark" else prefersDark
    | None => prefersDark
    end
  else false.

(** The theme effect, run whenever [isDarkMode] changes. *)
Definition themeEffect (isDarkMode : bool) (b : Browser) : Browser :=
  if isDarkMode then
    {| localStorage := <[ "lumina-theme" := "dark" ]> (localStorage b);
       classList := classList b ∪ {[ "dark" ]} |}
  else
    {| localStorage := <[ "lumina-theme" := "light" ]> (localStorage b);
       classList := classList b ∖ {[ "dark" ]} |}.

End App.

(** ** The inventory table ([InventoryTable]) *)

Module InventoryTable.

(** The component's state hooks. *)
Record State : Type := mkState {
  searchTerm : string;
  categoryFilter : string;
  stockFilter : string;
  selectedIds : gset string;
  isBatchMenuOpen : bool
}.

(** The initial values of the hooks. *)
Definition initial : State :=
  {| searchTerm := ""; categoryFilter := "All"; stockFilter := "All";
     selectedIds := ∅; isBatchMenuOpen := false |}.

Definition matchesSearch (st : State) (product : Product) : bool :=
  Str.includes (Str.toLowerCase (name product)) (Str.toLowerCase (searchTerm st))
  || Str.includes (Str.toLowerCase (sku product)) (Str.toLowerCase (searchTerm st)).

Definition matchesCategory (st : State) (product : Product) : bool :=
  String.eqb (categoryFilter st) "All"
  || String.eqb (Category_value (category product)) (categoryFilter st).

Definition matchesStock (st : State) (product : Product) : bool :=
  if String.eqb (stockFilter st) "In Stock" then
    Num.geb (quantity product) 10
  else if String.eqb (stockFilter st) "Low Stock" then
    Num.gtb (quantity product) 0 && Num.ltb (quantity product) 10
  else if String.eqb (stockFilter st) "Out of Stock" then
    Num.eqb (quantity product) 0
  else true.

(** [filteredProducts], recomputed from the props and the state. *)
Definition filteredProducts (st : State) (products : list Product) : list Product :=
  List.filter
    (fun product =>
       matchesSearch st product && matchesCategory st product && matchesStock st product)
    products.

(** [allFilteredSelected]. *)
Definition allFilteredSelected (filtered : list Product) (selected : gset string) : bool :=
  Nat.ltb 0 (length filtered)
  && forallb (fun p => bool_decide (id p ∈ selected)) filtered.

(** [handleSelectAll]: the set passed to [setSelectedIds]. The two [forEach]
    loops update the copy [newSelected] product by product. *)
Definition handleSelectAll (filtered : list Product) (selected : gset string) : gset string :=
  let newSelected := selected in
  if allFilteredSelected filtered selected then
    fold_left (fun acc p => acc ∖ {[ id p ]}) filtered newSelected
  else
    fold_left (fun acc p => acc ∪ {[ id p ]}) filtered newSelected.

(** [toggleSelection]: the set passed to [setSelectedIds]. *)
Definition toggleSelection (id_ : string) (selected : gset string) : gset string :=
  if bool_decide (id_ ∈ selected) then selected ∖ {[ id_ ]} else selected ∪ {[ id_ ]}.

Definition set_selectedIds (s : gset string) (st : State) : State :=
  {| searchTerm := searchTerm st; categoryFilter := categoryFilter st;
     stockFilter := stockFilter st; selectedIds := s;
     isBatchMenuOpen := isBatchMenuOpen st |}.

Definition set_stockFilter (f : string) (st : State) : State :=
  {| searchTerm := searchTerm st; categoryFilter := categoryFilter st;
     stockFilter := f; selectedIds := selectedIds st;
     isBatchMenuOpen := isBatchMenuOpen st |}.

(** [clearSelection]. *)
Definition clearSelection (st : State) : State :=
  {| searchTerm := searchTerm st; categoryFilter := categoryFilter st;
     stockFilter := stockFilter st; selectedIds := ∅;
     isBatchMenuOpen := false |}.

(** The catalog owned by [App] together with the table's own state. *)
Record World : Type := mkWorld {
  products : list Product;
  table : State
}.

(** The select-all checkbox's [onChange]. *)
Definition selectAllChange (w : World) : World :=
  {| products := products w;
     table :=
       set_selectedIds
         (handleSelectAll (filteredProducts (table w) (products w))
                          (selectedIds (table w)))
         (table w) |}.

(** [handleBatchDeleteClick], with [onBatchDelete] bound to
    [App.handleBatchDelete]. *)
Definition handleBatchDeleteClick (confirmed : bool) (w : World) : World :=
  {| products :=
       App.handleBatchDelete confirmed (elements (selectedIds (table w))) (products w);
     table := clearSelection (table w) |}.

(** [handleBatchLowStockClick], with [onBatchLowStock] bound to
    [App.handleBatchLowStock]. *)
Definition handleBatchLowStockClick (w : World) : World :=
  {| products :=
       App.handleBatchLowStock (elements (selectedIds (table w))) (products w);
     table := clearSelection (table w) |}.

(** The select-all checkbox: its [checked] and [indeterminate] flags. *)
Definition selectAllChecked (filtered : list Product) (selected : gset string) : bool :=
  allFilteredSelected filtered selected && Nat.ltb 0 (length filtered).

Definition isIndeterminate (filtered : list Product) (selected : gset string) : bool :=
  Nat.ltb 0 (size selected) && negb (allFilteredSelected filtered selected).

(** *** Sparkline *)

(** [Math.min(...data)] and [Math.max(...data)]; the component calls them on
    arrays of two or more numbers only. *)
Definition mathMin (data : list Q) : Q :=
  match data with
  | [] => 0
  | d :: rest => fold_left Num.min rest d
  end.

Definition mathMax (data : list Q) : Q :=
  match data with
  | [] => 0
  | d :: rest => fold_left Num.max rest d
  end.

(** What the component renders: the placeholder, or a polyline of the
    given colour through the given points with a dot at [circle]. *)
Inductive SparklineView : Type :=
  | NoHistory
  | Polyline (color : string) (points : list (Q * Q)) (circle : Q * Q).

(** The vertical position of a value. *)
Definition yOf (height min range val : Q) : Q :=
  (height - ((val - min) / range) * (height - 4) - 2)%Q.

Definition Sparkline (data : list Q) : SparklineView :=
  if Nat.ltb (length data) 2 then NoHistory
  else
    let height := 28%Q in
    let width := 100%Q in
    let min := mathMin data in
    let max := mathMax data in
    let range := Num.orElse (max - min) 1 in
    let first := nth 0 data 0%Q in
    let last := nth (length data - 1) data 0%Q in
    let color := "#64748b" in
    let color := if Num.gtb last first then "#10b981" else color in
    let color := if Num.ltb last first then "#f43f5e" else color in
    let points :=
      imap (fun i val =>
              ((inject_Z (Z.of_nat i) / (inject_Z (Z.of_nat (length data)) - 1)
                * width)%Q,
               yOf height min range val))
           data in
    Polyline color points (width, yOf height min range last).

(** The sparkline of a table row, [product.history || []]. *)
Definition rowSparkline (product : Product) : SparklineView :=
  Sparkline (match history product with Some h => h | None => [] end).

(** *** CSV export *)

Definition headers : list string :=
  ["ID"; "Name"; "SKU"; "Category"; "Price"; "Quantity"; "Description"; "Last Updated"].

(** The template literal of the name and description fields: the text with
    every double quote replaced by two ([replace] with the [g] flag), between
    two double quotes. *)
Definition escapeQuotes (s : string) : string :=
  Str.replaceAll Str.dquote (String Str.dquote (Str.char Str.dquote)) s.

Definition quoted (s : string) : string :=
  String Str.dquote (escapeQuotes s ++ Str.char Str.dquote).

Section CsvExport.

(** The conversion of a number to text that [Array.prototype.join] applies;
    it belongs to the language runtime. *)
Variable numberToString : Q -> string.

(** The array of fields of one product, before it is joined. *)
Definition fields (p : Product) : list string :=
  [ id p;
    quoted (name p);
    sku p;
    Category_value (category p);
    numberToString (price p);
    numberToString (quantity p);
    quoted (description p);
    lastUpdated p ].

Definition csvContent (filtered : list Product) : string :=
  Str.join (Str.char Str.newline)
    (Str.join "," headers :: map (fun p => Str.join "," (fields p)) filtered).

(** What the browser is asked to download. *)
Record Download : Type := mkDownload {
  download : string;
  blob : string
}.

(** [handleExportCSV]: the download it triggers, if any. [now] is the value
    of [new Date().toISOString()]. *)
Definition handleExportCSV (now : string) (filtered : list Product) : option Download :=
  if Nat.eqb (length filtered) 0 then None
  else
    Some {| download :=
              "lumina_inventory_export_" ++ Str.beforeFirst Str.letterT now ++ ".csv";
            blob := csvContent filtered |}.

(** The export button's [onClick]. *)
Definition exportClick (now : string) (w : World) : option Download :=
  handleExportCSV now (filteredProducts (table w) (products w)).

End CsvExport.

End InventoryTable.

(** ** The product form ([ProductModal]) *)

Module ProductModal.

(** [Partial<Product>]: every field may be missing. *)
Record FormData : Type := mkFormData {
  f_id : option string;
  f_name : option string;
  f_sku : option string;
  f_category : option Category;
  f_price : option Q;
  f_quantity : option Q;
  f_description : option string;
  f_lastUpdated : option string;
  f_history : option (list Q)
}.

(** The form of a new product. *)
Definition blank : FormData :=
  {| f_id := None; f_name := Some ""; f_sku := Some "";
     f_category := Some OTHER; f_price := Some 0%Q; f_quantity := Some 0%Q;
     f_description := Some ""; f_lastUpdated := None; f_history := None |}.

(** A product seen as form data. *)
Definition ofProduct (p : Product) : FormData :=
  {| f_id := Some (id p); f_name := Some (name p); f_sku := Some (sku p);
     f_category := Some (category p); f_price := Some (price p);
     f_quantity := Some (quantity p); f_description := Some (description p);
     f_lastUpdated := Some (lastUpdated p); f_history := history p |}.

(** The effect that loads the form when the modal opens. *)
Definition loadForm (initialProduct : option Product) : FormData :=
  match initialProduct with
  | Some p => ofProduct p
  | None => blank
  end.

(** [s || d] on an optional string: a missing or empty string gives [d]. *)
Definition strOr (s : option string) (d : string) : string :=
  match s with
  | Some x => if App.truthy x then x else d
  | None => d
  end.

(** [x || 0] on an optional number. *)
Definition numOrZero (x : option Q) : Q :=
  match x with
  | Some q => Num.orElse q 0
  | None => 0
  end.

(** [handleSubmit]: the product handed to [onSave]. [uuid] is the value of
    [crypto.randomUUID()], [now] of [new Date().toISOString()]. *)
Definition handleSubmit (initialProduct : option Product) (uuid now : string)
    (formData : FormData) : Product :=
  {| id := strOr (option_map id initialProduct) uuid;
     name := strOr (f_name formData) "Untitled";
     sku := strOr (f_sku formData) "N/A";
     category := match f_category formData with Some c => c | None => OTHER end;
     price := numOrZero (f_price formData);
     quantity := numOrZero (f_quantity formData);
     description := strOr (f_description formData) "";
     lastUpdated := now;
     history := Some (match f_history formData with Some h => h | None => [] end) |}.

(** Submitting the form in the application: [onSave] is
    [App.handleSaveProduct], and the modal's [initialProduct] is the
    application's [editingProduct]. *)
Definition submit (editingProduct : option Product) (uuid now : string)
    (formData : FormData) (prev : list Product) : list Product :=
  App.handleSaveProduct editingProduct
    (handleSubmit editingProduct uuid now formData) prev.

End ProductModal.

(** ** The text generation service ([geminiService]) *)

Module GeminiService.

(** How a call of [ai.models.generateContent] ends: the promise is rejected,
    or it resolves to a response whose [text] may be missing. *)
Inductive Outcome : Type :=
  | Rejected
  | Resolved (text : option string).

Definition generateProductDescription (o : Outcome) : string :=
  match o with
  | Resolved text => ProductModal.strOr text "No description generated."
  | Rejected => "Failed to generate description via AI."
  end.

Definition analyzeInventoryRisks (o : Outcome) : string :=
  match o with
  | Resolved text => ProductModal.strOr text "No analysis available."
  | Rejected => "Unable to analyze inventory at this time."
  end.

(** The summary sent with the analysis request: name, quantity, category
    and price of every product. *)
Definition inventorySummary (products : list Product) : list (string * Q * Category * Q) :=
  map (fun p => (name p, quantity p, category p, price p)) products.

Record Suggestion : Type := mkSuggestion {
  min : Q;
  max : Q;
  reasoning : string
}.

Section Pricing.

(** [JSON.parse] of the response text; [None] when it throws. *)
Variable parse : string -> option Suggestion.

Definition suggestPricing (o : Outcome) : Suggestion :=
  let fallback := {| min := 0; max := 0; reasoning := "AI unavailable" |} in
  match o with
  | Resolved (Some text) =>
      if App.truthy text then
        match parse text with
        | Some suggestion => suggestion
        | None => fallback
        end
      else fallback
  | Resolved None => fallback
  | Rejected => fallback
  end.

End Pricing.

End GeminiService.

(** ** The specification's wording, for comparison with the code *)

Module Spec.

(** "sum over records of [price * quantity]" *)
Fixpoint sumOfValues (snapshot : list Product) : Q :=
  match snapshot with
  | [] => 0
  | p :: rest => price p * quantity p + sumOfValues rest
  end.

(** "count where [quantity == 0]" *)
Fixpoint countOutOfStock (snapshot : list Product) : nat :=
  match snapshot with
  | [] => 0
  | p :: rest =>
      if Qeq_dec (quantity p) 0 then S (countOutOfStock rest)
      else countOutOfStock rest
  end.

(** [batchSetQuantity(ids, quantity)]: "sets [quantity] to the given value
    for every matching record, stamping [lastUpdated]"; [now] is the current
    time. *)
Definition batchSetQuantity (now : string) (ids : list string) (q : Q)
    (snapshot : list Product) : list Product :=
  map (fun p =>
         if array_includes ids (id p) then
           {| id := id p; name := name p; sku := sku p; category := category p;
              price := price p; quantity := q; description := description p;
              lastUpdated := now; history := history p |}
         else p)
      snapshot.

(** "case-insensitive": [big] is a capital letter and [small] is the same
    letter in small form, 32 places further in the character table. *)
Definition capitalOf (small big : ascii) : bool :=
  let n := nat_of_ascii big in
  ((Nat.leb 65 n && Nat.leb n 90)
   || (Nat.leb 192 n && Nat.leb n 214) || (Nat.leb 216 n && Nat.leb n 222))
  && Nat.eqb (nat_of_ascii small) (n + 32).

(** Two characters that are the same letter, whatever their case. *)
Definition sameLetter (a b : ascii) : bool :=
  Ascii.eqb a b || capitalOf a b || capitalOf b a.

(** Two texts that differ in the case of their letters only. *)
Fixpoint sameText (s t : string) : bool :=
  match s, t with
  | EmptyString, EmptyString => true
  | String a s', String b t' => sameLetter a b && sameText s' t'
  | _, _ => false
  end.

(** Reading a quoted field back: two adjacent double quotes stand for one. *)
Fixpoint undouble (s : string) : string :=
  match s with
  | EmptyString => EmptyString
  | String a s' =>
      String a
        match s' with
        | EmptyString => EmptyString
        | String b s'' =>
            if Ascii.eqb a Str.dquote && Ascii.eqb b Str.dquote
            then undouble s'' else undouble s'
        end
  end.

(** The export text, row by row: the header line, then for each product a
    line break and that product's row. *)
Definition exportText (row : Product -> string) (view : list Product) : string :=
  ("ID,Name,SKU,Category,Price,Quantity,Description,Last Updated"
   ++ fold_right (fun p text => Str.char Str.newline ++ row p ++ text) "" view)%string.

Section Rows.

Variable numberToString : Q -> string.

(** A row in which the name, the SKU and the description are quoted. *)
Definition rowQuotingSku (p : Product) : string :=
  id p ++ "," ++ InventoryTable.quoted (name p) ++ ","
  ++ InventoryTable.quoted (sku p) ++ ","
  ++ Category_value (category p) ++ "," ++ numberToString (price p) ++ ","
  ++ numberToString (quantity p) ++ ","
  ++ InventoryTable.quoted (description p) ++ "," ++ lastUpdated p.

(** A row in which the name and the description are quoted and every other
    field is written as it is. *)
Definition rowPlainSku (p : Product) : string :=
  id p ++ "," ++ InventoryTable.quoted (name p) ++ ","
  ++ sku p ++ ","
  ++ Category_value (category p) ++ "," ++ numberToString (price p) ++ ","
  ++ numberToString (quantity p) ++ ","
  ++ InventoryTable.quoted (description p) ++ "," ++ lastUpdated p.

End Rows.

End Spec.

(** ** Sample data used by the closed examples *)

Module Sample.

(** Decimal text of an integer-valued number (the runtime prints such a
    number this way); the examples call it on integers only. *)
Definition showInteger (q : Q) : string :=
  pretty (Qnum q / Zpos (Qden q))%Z.

Definition loadTime : string := "2024-01-01T00:00:00.000Z".
Definition clickTime : string := "2024-06-15T12:30:00.000Z".

Definition catalog : list Product := App.INITIAL_PRODUCTS loadTime.

(** Two records; the name of the first is a 6, a double quote (the inch
    mark) and the word Widget. *)
Definition widget : Product :=
  {| id := "w1"; name := ("6" ++ Str.char Str.dquote ++ " Widget")%string; sku := "WID-006";
     category := OTHER; price := 12; quantity := 3;
     description := "Six inch widget"; lastUpdated := loadTime;
     history := None |}.

Definition gadget : Product :=
  {| id := "g1"; name := "Gadget"; sku := "GAD-001";
     category := ELECTRONICS; price := 20; quantity := 0;
     description := ""; lastUpdated := loadTime;
     history := Some [] |}.

(** A table whose search box holds a text that matches no product. *)
Definition noMatch : InventoryTable.State :=
  {| InventoryTable.searchTerm := "zzz";
     InventoryTable.categoryFilter := "All";
     InventoryTable.stockFilter := "All";
     InventoryTable.selectedIds := {[ "1"; "9" ]};
     InventoryTable.isBatchMenuOpen := true |}.

End Sample.

(** ** Further sample data *)

Module Demo.

(** The mock catalog shown in a table in which the ids 1, 4 and 9 are
    selected; no product has the id 9. *)
Definition picked : InventoryTable.World :=
  {| InventoryTable.products := Sample.catalog;
     InventoryTable.table :=
       {| InventoryTable.searchTerm := "";
          InventoryTable.categoryFilter := "All";
          InventoryTable.stockFilter := "All";
          InventoryTable.selectedIds := {[ "1"; "4"; "9" ]};
          InventoryTable.isBatchMenuOpen := true |} |}.

(** A browser in which the theme was never stored. *)
Definition freshBrowser : App.Browser :=
  {| App.localStorage := ∅; App.classList := ∅ |}.

(** A browser whose stored theme is neither of the two values the
    application writes. *)
Definition oddBrowser : App.Browser :=
  {| App.localStorage := {[ "lumina-theme" := "blue" ]}; App.classList := ∅ |}.

(** A record whose name has an accented capital letter (code unit 201),
    and the same letter in small form (code unit 233). *)
Definition cafe : Product :=
  {| id := "c1"; name := String.append "CAF" (String "201"%char " Table");
     sku := "TBL-007"; category := FURNITURE; price := 80; quantity := 2;
     description := ""; lastUpdated := Sample.loadTime; history := None |}.

Definition smallE : string := Str.char "233"%char.

(** Three records priced 0.1, 0.2 and 0.3, one unit of each. *)
Definition dimes : list Product :=
  [ {| id := "d1"; name := "Washer"; sku := "WSH-001"; category := OTHER;
       price := 1 # 10; quantity := 1; description := "";
       lastUpdated := Sample.loadTime; history := None |};
    {| id := "d2"; name := "Nut"; sku := "NUT-001"; category := OTHER;
       price := 2 # 10; quantity := 1; description := "";
       lastUpdated := Sample.loadTime; history := None |};
    {| id := "d3"; name := "Bolt"; sku := "BLT-001"; category := OTHER;
       price := 3 # 10; quantity := 1; description := "";
       lastUpdated := Sample.loadTime; history := None |} ].

(** A record whose SKU holds a comma. *)
Definition kettle : Product :=
  {| id := "k1"; name := "Kettle"; sku := "KET,01"; category := OTHER;
     price := 25; quantity := 3; description := "Steel";
     lastUpdated := Sample.loadTime; history := None |}.

(** A record with a negative quantity, which the store accepts. *)
Definition returned : Product :=
  {| id := "r1"; name := "Returned Lamp"; sku := "LMP-009";
     category := OTHER; price := 30; quantity := (-2);
     description := ""; lastUpdated := Sample.loadTime; history := None |}.

(** The table with the search box holding the given text. *)
Definition searching (term : string) : InventoryTable.State :=
  {| InventoryTable.searchTerm := term;
     InventoryTable.categoryFilter := "All";
     InventoryTable.stockFilter := "All";
     InventoryTable.selectedIds := ∅;
     InventoryTable.isBatchMenuOpen := false |}.

End Demo.

(** ** Comparisons on numbers *)

Section NumFacts.

Local Open Scope Q_scope.

Lemma ltb_lt (a b : Q) : Num.ltb a b = true <-> a < b.
Proof.
  unfold Num.ltb. rewrite negb_true_iff. split.
  - intros H. apply Qnot_le_lt. intros Hle.
    apply Qle_bool_iff in Hle. congruence.
  - intros H. destruct (Qle_bool b a) eqn:E; [|reflexivity].
    apply Qle_bool_iff in E. exfalso. exact (Qlt_not_le _ _ H E).
Qed.

Lemma gtb_lt (a b : Q) : Num.gtb a b = true <-> b < a.
Proof. unfold Num.gtb. apply ltb_lt. Qed.

Lemma geb_le (a b : Q) : Num.geb a b = true <-> b <= a.
Proof. unfold Num.geb. apply Qle_bool_iff. Qed.

Lemma eqb_eq (a b : Q) : Num.eqb a b = true <-> a == b.
Proof. unfold Num.eqb. apply Qeq_bool_iff. Qed.

Lemma eqb_neq (a b : Q) : Num.eqb a b = false <-> ~ a == b.
Proof.
  rewrite <- eqb_eq. destruct (Num.eqb a b); split; congruence.
Qed.

(** The comparisons do not tell equal numbers apart. *)
Lemma ltb_compat (a a' b : Q) : a == a' -> Num.ltb a b = Num.ltb a' b.
Proof.
  intros E. destruct (Num.ltb a' b) eqn:H.
  - apply ltb_lt. apply ltb_lt in H. now rewrite E.
  - destruct (Num.ltb a b) eqn:H'; [|reflexivity].
    apply ltb_lt in H'. rewrite E in H'. apply ltb_lt in H'. congruence.
Qed.

Lemma eqb_compat (a a' b : Q) : a == a' -> Num.eqb a b = Num.eqb a' b.
Proof.
  intros E. destruct (Num.eqb a' b) eqn:H.
  - apply eqb_eq. apply eqb_eq in H. now rewrite E.
  - destruct (Num.eqb a b) eqn:H'; [|reflexivity].
    apply eqb_eq in H'. rewrite E in H'. apply eqb_eq in H'. congruence.
Qed.

End NumFacts.

(** ** Dashboard statistics *)

Section Stats.

Import App.

Lemma lowStockItems_unfold products :
  lowStockItems (stats products) = length (List.filter isLow products).
Proof. reflexivity. Qed.

Lemma outOfStockItems_unfold products :
  outOfStockItems (stats products) = length (List.filter isOut products).
Proof. reflexivity. Qed.

(** A record that passes the test adds one to a count taken by
    [filter] and [length], wherever it stands in the snapshot. *)
Lemma count_insert (f : Product -> bool) l1 p l2 :
  f p = true ->
  length (List.filter f (l1 ++ p :: l2)) = S (length (List.filter f (l1 ++ l2))).
Proof.
  intros Hp. rewrite !List.filter_app, !List.length_app. simpl.
  rewrite Hp. simpl. lia.
Qed.

(** The total after one more record: the total so far plus the value of the
    record, both operations in floating point. *)
Lemma totalValue_snoc products p :
  totalValue (stats (products ++ [p]))
  = PrimFloat.add (totalValue (stats products))
      (PrimFloat.mul (Num.toDouble (price p)) (Num.toDouble (quantity p))).
Proof. unfold stats; simpl. now rewrite List.fold_left_app. Qed.

Lemma countOutOfStock_filter products :
  length (List.filter isOut products) = Spec.countOutOfStock products.
Proof.
  induction products as [|p rest IH]; simpl; [reflexivity|].
  unfold isOut at 1. destruct (Qeq_dec (quantity p) 0) as [E|E].
  - apply eqb_eq in E. rewrite E. simpl. now rewrite IH.
  - apply eqb_neq in E. rewrite E. exact IH.
Qed.

(** The two counts depend on the quantities only. *)
Lemma counts_by_quantities products (qs : list Q) :
  Forall2 Qeq (map quantity products) qs ->
  length (List.filter isLow products)
    = length (List.filter (fun q => Num.ltb q 10) qs)
  /\ length (List.filter isOut products)
    = length (List.filter (fun q => Num.eqb q 0) qs).
Proof.
  revert qs. induction products as [|p rest IH]; intros qs H.
  - inversion H; subst. split; reflexivity.
  - simpl in H. inversion H as [|q0 q qs0 qs' Hq Hrest]; subst.
    destruct (IH _ Hrest) as [IHlow IHout]. simpl.
    unfold isLow at 1, isOut at 1.
    rewrite (ltb_compat _ _ 10 Hq), (eqb_compat _ _ 0 Hq).
    split.
    + destruct (Num.ltb q 10); simpl; congruence.
    + destruct (Num.eqb q 0); simpl; congruence.
Qed.

End Stats.

(** ** The table's filter *)

Section Filter.

Import InventoryTable.

Lemma filteredProducts_In st products p :
  In p (filteredProducts st products) <->
  In p products /\ matchesSearch st p = true /\ matchesCategory st p = true
  /\ matchesStock st p = true.
Proof.
  unfold filteredProducts. rewrite List.filter_In, !andb_true_iff. tauto.
Qed.

(** With the stock filter on its [Low Stock] entry a visible product has a
    quantity strictly between 0 and 10. *)
Lemma matchesStock_low st p :
  stockFilter st = "Low Stock" ->
  matchesStock st p = true <-> (0 < quantity p /\ quantity p < 10)%Q.
Proof.
  intros E. unfold matchesStock. rewrite E. simpl.
  rewrite andb_true_iff, gtb_lt, ltb_lt. tauto.
Qed.

End Filter.

(** ** Low stock on the dashboard and in the table *)

(** C1. A product of the snapshot whose quantity is 0 is counted by the
    dashboard statistic [lowStockItems] (without it the count is one less),
    and it is not in the table's view when the stock filter is
    [Low Stock], whatever the search text and the category filter are. *)
Theorem zero_quantity_counted_low_but_not_in_low_stock_view :
  forall (products : list Product) (p : Product) (st : InventoryTable.State),
    In p products ->
    (quantity p == 0)%Q ->
    (exists l1 l2,
        products = l1 ++ p :: l2 /\
        lowStockItems (App.stats products)
          = S (lowStockItems (App.stats (l1 ++ l2))))
    /\ In p (List.filter App.isLow products)
    /\ ~ In p (InventoryTable.filteredProducts
                 (InventoryTable.set_stockFilter "Low Stock" st) products).
Proof.
  intros products p st Hin Hq.
  assert (Hlow : App.isLow p = true).
  { unfold App.isLow. apply ltb_lt. rewrite Hq. reflexivity. }
  split; [|split].
  - destruct (List.in_split _ _ Hin) as (l1 & l2 & ->).
    exists l1, l2. split; [reflexivity|].
    rewrite !lowStockItems_unfold. now apply count_insert.
  - apply List.filter_In. split; assumption.
  - intros H. apply filteredProducts_In in H as (_ & _ & _ & H).
    apply matchesStock_low in H; [|reflexivity].
    destruct H as [Hpos _]. rewrite Hq in Hpos.
    exact (Qlt_irrefl 0 Hpos).
Qed.

Lemma zero_quantity_counted_low_but_not_in_low_stock_view_witness :
  let products := [Sample.widget; Sample.gadget] in
  (exists l1 l2,
      products = l1 ++ Sample.gadget :: l2 /\
      lowStockItems (App.stats products)
        = S (lowStockItems (App.stats (l1 ++ l2))))
  /\ In Sample.gadget (List.filter App.isLow products)
  /\ ~ In Sample.gadget
       (InventoryTable.filteredProducts
          (InventoryTable.set_stockFilter "Low Stock" InventoryTable.initial)
          products).
Proof.
  apply (zero_quantity_counted_low_but_not_in_low_stock_view
           [Sample.widget; Sample.gadget] Sample.gadget InventoryTable.initial).
  - simpl. right. left. reflexivity.
  - reflexivity.
Defined.

(** C4, as the code has it. For every snapshot [stats] reports the number
    of records as [totalProducts]; as [totalValue] the running total of
    [price * quantity] over the records in the order of the catalog, in
    floating point: 0 for the empty catalog, and after one more record the
    total so far plus the price of the record times its quantity, the product
    and the sum each rounded to the nearest double; and as [outOfStockItems]
    the number of records whose quantity is 0. For a catalog of five records
    with quantities 15, 4, 8, 42 and 120 it reports 2 low-stock items,
    0 out-of-stock items and 5 products. *)
Theorem stats_totals_and_scenario_A :
  forall products : list Product,
    totalProducts (App.stats products) = length products
    /\ totalValue (App.stats []) = PrimFloat.zero
    /\ (forall p,
           totalValue (App.stats (products ++ [p]))
           = PrimFloat.add (totalValue (App.stats products))
               (PrimFloat.mul (Num.toDouble (price p))
                  (Num.toDouble (quantity p))))
    /\ outOfStockItems (App.stats products) = Spec.countOutOfStock products
    /\ (Forall2 Qeq (map quantity products) [15; 4; 8; 42; 120]%Q ->
        lowStockItems (App.stats products) = 2
        /\ outOfStockItems (App.stats products) = 0
        /\ totalProducts (App.stats products) = 5).
Proof.
  intros products. split; [reflexivity|]. split; [reflexivity|].
  split; [|split].
  - intros p. apply totalValue_snoc.
  - rewrite outOfStockItems_unfold. apply countOutOfStock_filter.
  - intros H. rewrite lowStockItems_unfold, outOfStockItems_unfold.
    destruct (counts_by_quantities _ _ H) as [-> ->].
    split; [reflexivity|]. split; [reflexivity|].
    simpl. apply Forall2_length in H. rewrite length_map in H. exact H.
Qed.

Lemma stats_totals_and_scenario_A_witness :
  lowStockItems (App.stats Sample.catalog) = 2
  /\ outOfStockItems (App.stats Sample.catalog) = 0
  /\ totalProducts (App.stats Sample.catalog) = 5.
Proof.
  destruct (stats_totals_and_scenario_A Sample.catalog) as (_ & _ & _ & _ & H).
  apply H. unfold Sample.catalog, App.INITIAL_PRODUCTS. simpl.
  repeat constructor.
Defined.

(** C4, as the specification words it, fails: for three records priced 0.1,
    0.2 and 0.3, one unit of each, the total that [stats] reports is not the
    double 0.6 that the sum of the three values is; the running total has
    been rounded on the way. *)
Lemma stats_total_value_is_not_the_exact_sum :
  totalValue (App.stats Demo.dimes) <> Num.toDouble (Spec.sumOfValues Demo.dimes).
Proof.
  intros H.
  apply (f_equal (fun f => PrimFloat.eqb f
                             (Num.toDouble (Spec.sumOfValues Demo.dimes)))) in H.
  vm_compute in H. discriminate H.
Qed.

(** ** Substring search *)

Section Search.

Import Str.

Lemma startsWith_empty hay : startsWith "" hay = true.
Proof. destruct hay; reflexivity. Qed.

Lemma includes_empty hay : includes hay "" = true.
Proof. destruct hay; reflexivity. Qed.

Lemma toLowerCase_empty : toLowerCase "" = "".
Proof. reflexivity. Qed.

Lemma startsWith_prefix needle hay :
  startsWith needle hay = true <-> exists post, hay = (needle ++ post)%string.
Proof.
  revert hay. induction needle as [|a n IH]; intros hay.
  - rewrite startsWith_empty. split; [|reflexivity].
    intros _. exists hay. reflexivity.
  - destruct hay as [|b h]; simpl.
    + split; [discriminate|]. intros [post H]. discriminate.
    + rewrite andb_true_iff, Ascii.eqb_eq, IH. split.
      * intros [-> [post ->]]. exists post. reflexivity.
      * intros [post H]. injection H as -> ->. split; [reflexivity|].
        exists post. reflexivity.
Qed.

(** [includes] finds exactly the texts that occur somewhere in [hay]. *)
Lemma includes_occurs hay needle :
  includes hay needle = true <->
  exists pre post, hay = (pre ++ needle ++ post)%string.
Proof.
  induction hay as [|b h IH].
  - simpl. rewrite orb_false_r, startsWith_prefix. split.
    + intros [post H]. exists "", post. exact H.
    + intros (pre & post & H). destruct pre; [|discriminate].
      exists post. exact H.
  - simpl includes. rewrite orb_true_iff, startsWith_prefix, IH. split.
    + intros [[post H] | (pre & post & H)].
      * exists "", post. exact H.
      * exists (String b pre), post. simpl. now rewrite H.
    + intros (pre & post & H). destruct pre as [|c pre].
      * left. exists post. exact H.
      * right. simpl in H. injection H as -> ->. exists pre, post. reflexivity.
Qed.

End Search.

(** ** Filtering *)

Section FilterFacts.

Import InventoryTable.

Lemma filter_all {A} (f : A -> bool) (l : list A) :
  (forall x, In x l -> f x = true) -> List.filter f l = l.
Proof.
  induction l as [|x l IH]; intros H; simpl; [reflexivity|].
  rewrite (H x (or_introl eq_refl)). f_equal. apply IH.
  intros y Hy. apply H. now right.
Qed.

Lemma filter_twice {A} (f : A -> bool) (l : list A) :
  List.filter f (List.filter f l) = List.filter f l.
Proof.
  apply filter_all. intros x Hx. now apply List.filter_In in Hx.
Qed.

Lemma filter_sublist {A} (f : A -> bool) (l : list A) :
  sublist (List.filter f l) l.
Proof.
  induction l as [|x l IH]; simpl.
  - constructor.
  - destruct (f x); now constructor.
Qed.

Lemma default_filter_matches st p :
  searchTerm st = "" -> categoryFilter st = "All" -> stockFilter st = "All" ->
  matchesSearch st p && matchesCategory st p && matchesStock st p = true.
Proof.
  intros Hs Hc Hk.
  unfold matchesSearch, matchesCategory, matchesStock.
  rewrite Hs, Hc, Hk, toLowerCase_empty, !includes_empty.
  reflexivity.
Qed.

End FilterFacts.

(** C6. The filtered view is determined by the snapshot and the three
    filter fields alone (the selection and the menu flag play no part); a
    record is kept exactly when the search, category and stock tests all
    hold for it; the view of a concatenation is the concatenation of the
    views, so the snapshot's order is kept; and with the default
    specification (empty search text, category [All], stock [All]) the view
    is the snapshot itself. *)
Theorem filteredProducts_conjunctive_ordered_default :
  forall (st : InventoryTable.State) (products : list Product),
    (forall st',
        InventoryTable.searchTerm st' = InventoryTable.searchTerm st ->
        InventoryTable.categoryFilter st' = InventoryTable.categoryFilter st ->
        InventoryTable.stockFilter st' = InventoryTable.stockFilter st ->
        InventoryTable.filteredProducts st' products
          = InventoryTable.filteredProducts st products)
    /\ (forall p,
           In p (InventoryTable.filteredProducts st products) <->
           In p products
           /\ InventoryTable.matchesSearch st p = true
           /\ InventoryTable.matchesCategory st p = true
           /\ InventoryTable.matchesStock st p = true)
    /\ (forall p,
           InventoryTable.filteredProducts st [p] =
           if InventoryTable.matchesSearch st p
              && InventoryTable.matchesCategory st p
              && InventoryTable.matchesStock st p
           then [p] else [])
    /\ (forall l1 l2,
           products = l1 ++ l2 ->
           InventoryTable.filteredProducts st products
             = InventoryTable.filteredProducts st l1
               ++ InventoryTable.filteredProducts st l2)
    /\ sublist (InventoryTable.filteredProducts st products) products
    /\ (InventoryTable.searchTerm st = "" ->
        InventoryTable.categoryFilter st = "All" ->
        InventoryTable.stockFilter st = "All" ->
        InventoryTable.filteredProducts st products = products).
Proof.
  intros st products. split; [|split; [|split; [|split; [|split]]]].
  - intros st' Hs Hc Hk. unfold InventoryTable.filteredProducts.
    apply List.filter_ext. intros p.
    unfold InventoryTable.matchesSearch, InventoryTable.matchesCategory,
      InventoryTable.matchesStock.
    now rewrite Hs, Hc, Hk.
  - intros p. apply filteredProducts_In.
  - intros p. reflexivity.
  - intros l1 l2 ->. apply List.filter_app.
  - apply filter_sublist.
  - intros Hs Hc Hk. apply filter_all. intros p _.
    now apply default_filter_matches.
Qed.

Lemma filteredProducts_conjunctive_ordered_default_witness :
  InventoryTable.filteredProducts InventoryTable.initial Sample.catalog
    = Sample.catalog
  /\ InventoryTable.filteredProducts Sample.noMatch
       (firstn 2 Sample.catalog ++ skipn 2 Sample.catalog)
     = InventoryTable.filteredProducts Sample.noMatch (firstn 2 Sample.catalog)
       ++ InventoryTable.filteredProducts Sample.noMatch (skipn 2 Sample.catalog).
Proof.
  split.
  - apply (filteredProducts_conjunctive_ordered_default
             InventoryTable.initial Sample.catalog); reflexivity.
  - apply (filteredProducts_conjunctive_ordered_default Sample.noMatch
             (firstn 2 Sample.catalog ++ skipn 2 Sample.catalog)).
    reflexivity.
Defined.

(** ** Deleting *)

Section Delete.

Import App.

Lemma array_includes_In ids x : array_includes ids x = true <-> In x ids.
Proof.
  unfold array_includes. rewrite List.existsb_exists. split.
  - intros (y & Hy & E). apply String.eqb_eq in E. now subst.
  - intros H. exists x. split; [assumption|]. apply String.eqb_refl.
Qed.

Lemma array_includes_agree ids ids' x :
  (In x ids <-> In x ids') -> array_includes ids x = array_includes ids' x.
Proof.
  intros H. destruct (array_includes ids' x) eqn:E.
  - apply array_includes_In, H, array_includes_In, E.
  - destruct (array_includes ids x) eqn:E'; [|reflexivity].
    apply array_includes_In, H, array_includes_In in E'. congruence.
Qed.

(** Only the ids that occur in the catalog matter to a batch delete. *)
Lemma handleBatchDelete_agree c ids ids' products :
  (forall p, In p products -> (In (id p) ids <-> In (id p) ids')) ->
  handleBatchDelete c ids products = handleBatchDelete c ids' products.
Proof.
  intros H. unfold handleBatchDelete. destruct c; [|reflexivity].
  apply List.filter_ext_in. intros p Hp. f_equal.
  apply array_includes_agree, H, Hp.
Qed.

Lemma handleDeleteProduct_absent c id_ products :
  ~ In id_ (map id products) -> handleDeleteProduct c id_ products = products.
Proof.
  intros H. unfold handleDeleteProduct. destruct c; [|reflexivity].
  apply filter_all. intros p Hp. apply negb_true_iff.
  apply String.eqb_neq. intros E. apply H. subst id_. now apply List.in_map.
Qed.

Lemma handleDeleteProduct_twice c1 c2 id_ products :
  handleDeleteProduct c2 id_ (handleDeleteProduct c1 id_ products)
  = handleDeleteProduct (c1 || c2) id_ products.
Proof.
  unfold handleDeleteProduct. destruct c1, c2; simpl; try reflexivity.
  apply filter_twice.
Qed.

End Delete.

(** C7. Deleting tolerates absent ids. Deleting the same id twice leaves the
    catalog that deleting it once leaves (whatever the second confirmation
    dialog is answered once the first deletion went through); deleting an id
    that no record has leaves the catalog as it is; a batch delete keeps
    exactly the records whose id is not in the given array, so ids of no
    record make no difference. The handlers are total functions: there is no
    error outcome. *)
Theorem delete_tolerates_absent_ids :
  forall products : list Product,
    (forall c id_,
        App.handleDeleteProduct c id_ (App.handleDeleteProduct c id_ products)
        = App.handleDeleteProduct c id_ products)
    /\ (forall c id_,
           App.handleDeleteProduct c id_ (App.handleDeleteProduct true id_ products)
           = App.handleDeleteProduct true id_ products)
    /\ (forall c id_,
           ~ In id_ (map id products) ->
           App.handleDeleteProduct c id_ products = products)
    /\ (forall ids p,
           In p (App.handleBatchDelete true ids products) <->
           In p products /\ ~ In (id p) ids)
    /\ (forall ids, sublist (App.handleBatchDelete true ids products) products)
    /\ (forall c ids unknown,
           (forall u, In u unknown -> ~ In u (map id products)) ->
           App.handleBatchDelete c (ids ++ unknown) products
           = App.handleBatchDelete c ids products).
Proof.
  intros products. split; [|split; [|split; [|split; [|split]]]].
  - intros c id_. rewrite handleDeleteProduct_twice. now destruct c.
  - intros c id_. apply handleDeleteProduct_twice.
  - intros c id_. apply handleDeleteProduct_absent.
  - intros ids p. unfold App.handleBatchDelete.
    rewrite List.filter_In, negb_true_iff, <- array_includes_In.
    destruct (array_includes ids (id p)); intuition congruence.
  - intros ids. apply filter_sublist.
  - intros c ids unknown Hu. apply handleBatchDelete_agree.
    intros p Hp. rewrite List.in_app_iff. split; [|tauto].
    intros [H|H]; [assumption|]. exfalso. apply (Hu _ H).
    now apply List.in_map.
Qed.

Lemma delete_tolerates_absent_ids_witness :
  App.handleDeleteProduct true "42" Sample.catalog = Sample.catalog
  /\ App.handleBatchDelete true (["2"; "4"] ++ ["42"; "nope"]) Sample.catalog
     = App.handleBatchDelete true ["2"; "4"] Sample.catalog.
Proof.
  destruct (delete_tolerates_absent_ids Sample.catalog)
    as (_ & _ & Habsent & _ & _ & Hbatch).
  split.
  - apply Habsent. simpl. intros H.
    repeat (destruct H as [H|H]; [discriminate H|]). exact H.
  - apply Hbatch. simpl. intros u [<-|[<-|[]]] H;
      repeat (destruct H as [H|H]; [discriminate H|]); exact H.
Defined.

(** ** Selection *)

Section Selection.

Import InventoryTable.

Implicit Types (filtered : list Product) (selected : gset string).

Lemma forEach_delete filtered selected :
  fold_left (fun acc p => acc ∖ {[ id p ]}) filtered selected
  = selected ∖ list_to_set (map id filtered).
Proof.
  revert selected. induction filtered as [|p rest IH]; intros selected; simpl.
  - now rewrite difference_empty_L.
  - now rewrite IH, difference_difference_l_L.
Qed.

Lemma forEach_add filtered selected :
  fold_left (fun acc p => acc ∪ {[ id p ]}) filtered selected
  = selected ∪ list_to_set (map id filtered).
Proof.
  revert selected. induction filtered as [|p rest IH]; intros selected; simpl.
  - now rewrite (right_id_L ∅ (∪)).
  - now rewrite IH, (assoc_L (∪)).
Qed.

Lemma allFilteredSelected_true filtered selected :
  allFilteredSelected filtered selected = true <->
  filtered <> [] /\ forall p, In p filtered -> id p ∈ selected.
Proof.
  unfold allFilteredSelected.
  rewrite andb_true_iff, Nat.ltb_lt, List.forallb_forall. split.
  - intros [Hlen Hall]. split.
    + intros ->. simpl in Hlen. lia.
    + intros p Hp. eapply bool_decide_eq_true_1. apply Hall, Hp.
  - intros [Hne Hall]. split.
    + destruct filtered; [congruence | simpl; lia].
    + intros p Hp. apply bool_decide_eq_true_2. now apply Hall.
Qed.

Lemma handleSelectAll_all_selected filtered selected :
  filtered <> [] -> (forall p, In p filtered -> id p ∈ selected) ->
  handleSelectAll filtered selected = selected ∖ list_to_set (map id filtered).
Proof.
  intros Hne Hall. unfold handleSelectAll.
  rewrite (proj2 (allFilteredSelected_true filtered selected) (conj Hne Hall)).
  apply forEach_delete.
Qed.

Lemma handleSelectAll_otherwise filtered selected :
  ~ (filtered <> [] /\ forall p, In p filtered -> id p ∈ selected) ->
  handleSelectAll filtered selected = selected ∪ list_to_set (map id filtered).
Proof.
  intros Hnot. unfold handleSelectAll.
  destruct (allFilteredSelected filtered selected) eqn:E.
  - apply allFilteredSelected_true in E. contradiction.
  - apply forEach_add.
Qed.

End Selection.

(** C5. The select-all checkbox on a view that is not empty: when every id
    of the view is selected already, exactly the ids of the view are removed
    from the selection (a selected id outside the view stays); otherwise the
    ids of the view are added to the selection, which keeps every id it had.
    With the first three products visible and the ids 1, 2 and 5 selected,
    the result is the selection of the ids 1, 2, 3 and 5, four in all. *)
Theorem handleSelectAll_tristate :
  (forall (filtered : list Product) (selected : gset string),
      filtered <> [] ->
      ((forall p, In p filtered -> id p ∈ selected) ->
       InventoryTable.handleSelectAll filtered selected
       = selected ∖ list_to_set (map id filtered))
      /\ (~ (forall p, In p filtered -> id p ∈ selected) ->
          InventoryTable.handleSelectAll filtered selected
          = selected ∪ list_to_set (map id filtered)))
  /\ InventoryTable.handleSelectAll (firstn 3 Sample.catalog) {[ "1"; "2"; "5" ]}
     = {[ "1"; "2"; "3"; "5" ]}
  /\ size (InventoryTable.handleSelectAll (firstn 3 Sample.catalog)
             {[ "1"; "2"; "5" ]}) = 4.
Proof.
  split; [|split].
  - intros filtered selected Hne. split.
    + intros Hall. now apply handleSelectAll_all_selected.
    + intros Hnot. apply handleSelectAll_otherwise. tauto.
  - vm_compute. reflexivity.
  - vm_compute. reflexivity.
Qed.

Lemma handleSelectAll_tristate_witness :
  InventoryTable.handleSelectAll (firstn 2 Sample.catalog) {[ "1"; "2"; "5" ]}
  = ({[ "1"; "2"; "5" ]} : gset string) ∖ list_to_set (map id (firstn 2 Sample.catalog)).
Proof.
  destruct handleSelectAll_tristate as [H _].
  apply (H (firstn 2 Sample.catalog) {[ "1"; "2"; "5" ]}).
  - discriminate.
  - simpl. intros p [<-|[<-|[]]]; simpl.
    + apply elem_of_union_l, elem_of_union_l, elem_of_singleton. reflexivity.
    + apply elem_of_union_l, elem_of_union_r, elem_of_singleton. reflexivity.
Defined.

(** C8. On an empty view the select-all checkbox changes nothing: the
    selection it stores is the selection it found, and so are the rest of
    the table's state and the catalog. *)
Theorem handleSelectAll_empty_view :
  (forall selected : gset string,
      InventoryTable.handleSelectAll [] selected = selected)
  /\ (forall w : InventoryTable.World,
         InventoryTable.filteredProducts (InventoryTable.table w)
           (InventoryTable.products w) = [] ->
         InventoryTable.selectedIds
           (InventoryTable.table (InventoryTable.selectAllChange w))
         = InventoryTable.selectedIds (InventoryTable.table w)
         /\ InventoryTable.selectAllChange w = w).
Proof.
  split; [reflexivity|].
  intros [products [s c k sel m]] H. unfold InventoryTable.selectAllChange.
  simpl in *. rewrite H. split; reflexivity.
Qed.

Lemma handleSelectAll_empty_view_witness :
  let w := {| InventoryTable.products := Sample.catalog;
              InventoryTable.table := Sample.noMatch |} in
  InventoryTable.selectedIds
    (InventoryTable.table (InventoryTable.selectAllChange w))
  = {[ "1"; "9" ]}
  /\ InventoryTable.selectAllChange w = w.
Proof.
  destruct handleSelectAll_empty_view as [_ H].
  apply (H {| InventoryTable.products := Sample.catalog;
              InventoryTable.table := Sample.noMatch |}).
  reflexivity.
Defined.

(** C10. Both batch actions of the table leave the selection empty, whatever
    was selected, whether or not the selected ids are ids of the catalog, and
    whatever the confirmation dialog of the batch delete is answered. *)
Theorem batch_actions_clear_selection :
  forall (confirmed : bool) (w : InventoryTable.World),
    InventoryTable.selectedIds
      (InventoryTable.table (InventoryTable.handleBatchDeleteClick confirmed w)) = ∅
    /\ InventoryTable.selectedIds
         (InventoryTable.table (InventoryTable.handleBatchLowStockClick w)) = ∅.
Proof. intros confirmed w. split; reflexivity. Qed.

(** ** CSV export *)

Section Csv.

Import Str InventoryTable.

Local Open Scope string_scope.

Lemma append_empty_r s : s ++ "" = s.
Proof.
  induction s as [|a s IH]; [reflexivity|].
  change (String a (s ++ "") = String a s). now rewrite IH.
Qed.

Lemma escapeQuotes_quote s :
  escapeQuotes (String dquote s) = String dquote (String dquote (escapeQuotes s)).
Proof. reflexivity. Qed.

Lemma escapeQuotes_other a s :
  Ascii.eqb a dquote = false ->
  escapeQuotes (String a s) = String a (escapeQuotes s).
Proof.
  intros H. unfold escapeQuotes. simpl replaceAll. now rewrite H.
Qed.

(** Reading the escaped text back gives the text. *)
Lemma undouble_escapeQuotes s : Spec.undouble (escapeQuotes s) = s.
Proof.
  induction s as [|a s IH]; [reflexivity|].
  destruct (Ascii.eqb a dquote) eqn:E.
  - apply Ascii.eqb_eq in E. subst a. rewrite escapeQuotes_quote.
    simpl. now rewrite IH.
  - rewrite (escapeQuotes_other _ _ E). simpl. rewrite E. simpl.
    destruct (escapeQuotes s) as [|b rest] eqn:Es.
    + simpl in IH. now rewrite <- IH.
    + now rewrite IH.
Qed.

(** Every double quote of the text has become two. *)
Lemma occurrences_escapeQuotes s :
  occurrences dquote (escapeQuotes s) = 2 * occurrences dquote s.
Proof.
  induction s as [|a s IH]; [reflexivity|].
  destruct (Ascii.eqb a dquote) eqn:E.
  - apply Ascii.eqb_eq in E. subst a. rewrite escapeQuotes_quote.
    simpl. rewrite IH. lia.
  - rewrite (escapeQuotes_other _ _ E). simpl. rewrite E, IH. lia.
Qed.

(** [join] with a line break: the first line, then every further line
    after a line break. *)
Lemma join_lines (first : string) (rest : list string) :
  join (char newline) (first :: rest)
  = first ++ fold_right (fun r text => char newline ++ r ++ text) "" rest.
Proof.
  revert first. induction rest as [|r rest IH]; intros first.
  - simpl. now rewrite append_empty_r.
  - change (join (char newline) (first :: r :: rest))
      with (first ++ char newline ++ join (char newline) (r :: rest)).
    now rewrite IH.
Qed.

Variable numberToString : Q -> string.

Lemma fields_row p :
  join "," (fields numberToString p) = Spec.rowPlainSku numberToString p.
Proof. reflexivity. Qed.

Lemma csvContent_text filtered :
  csvContent numberToString filtered
  = Spec.exportText (Spec.rowPlainSku numberToString) filtered.
Proof.
  unfold csvContent, Spec.exportText. rewrite join_lines.
  change (join "," headers)
    with "ID,Name,SKU,Category,Price,Quantity,Description,Last Updated".
  f_equal. induction filtered as [|p rest IH]; [reflexivity|].
  cbn [map fold_right]. now rewrite IH, fields_row.
Qed.

End Csv.

(** C3. The export does not treat the SKU as it treats the other text
    fields. For the one-record view of a product whose SKU is [KET,01] the
    file holds the header line and one row in which the name and the
    description stand between double quotes while the SKU is written as it
    is: the row has eight commas under a header line of seven, and it is not
    the row that quotes the name, the SKU and the description. *)
Theorem export_writes_sku_unquoted :
  exists d,
    InventoryTable.handleExportCSV Sample.showInteger Sample.clickTime
      [Demo.kettle] = Some d
    /\ InventoryTable.blob d
       = ("ID,Name,SKU,Category,Price,Quantity,Description,Last Updated"
          ++ Str.char Str.newline
          ++ "k1," ++ InventoryTable.quoted "Kettle" ++ ",KET,01,Other,25,3,"
          ++ InventoryTable.quoted "Steel" ++ ",2024-01-01T00:00:00.000Z")%string
    /\ InventoryTable.blob d
       <> Spec.exportText (Spec.rowQuotingSku Sample.showInteger) [Demo.kettle]
    /\ Str.occurrences ","%char (Str.join "," InventoryTable.headers) = 7
    /\ Str.occurrences ","%char
         (Str.join "," (InventoryTable.fields Sample.showInteger Demo.kettle)) = 8.
Proof.
  eexists. split; [reflexivity|]. split; [vm_compute; reflexivity|].
  split; [|split; vm_compute; reflexivity].
  intros H. vm_compute in H. discriminate H.
Qed.

(** C9. On an empty view the export hands nothing to the browser: no file,
    not even one that holds the header line alone. A view that is not empty
    always yields a file. *)
Theorem export_nothing_on_empty_view :
  forall (numberToString : Q -> string) (now : string),
    InventoryTable.handleExportCSV numberToString now [] = None
    /\ (forall filtered,
           InventoryTable.handleExportCSV numberToString now filtered = None
           <-> filtered = [])
    /\ (forall w,
           InventoryTable.filteredProducts (InventoryTable.table w)
             (InventoryTable.products w) = [] ->
           InventoryTable.exportClick numberToString now w = None).
Proof.
  intros numberToString now. split; [reflexivity|]. split.
  - intros filtered. unfold InventoryTable.handleExportCSV.
    destruct filtered; simpl; split; congruence.
  - intros w H. unfold InventoryTable.exportClick. now rewrite H.
Qed.

Lemma export_nothing_on_empty_view_witness :
  InventoryTable.exportClick Sample.showInteger Sample.clickTime
    {| InventoryTable.products := Sample.catalog;
       InventoryTable.table := Sample.noMatch |} = None.
Proof.
  destruct (export_nothing_on_empty_view Sample.showInteger Sample.clickTime)
    as (_ & _ & H).
  apply H. reflexivity.
Defined.

(** ** Marking as low stock *)

Section BatchLowStock.

Import App.

Lemma handleBatchLowStock_lastUpdated ids prev :
  map lastUpdated (handleBatchLowStock ids prev) = map lastUpdated prev.
Proof.
  unfold handleBatchLowStock. rewrite List.map_map. apply List.map_ext.
  intros p. now destruct (array_includes ids (id p)).
Qed.

Lemma handleBatchLowStock_lookup ids prev (i : nat) p :
  prev !! i = Some p ->
  handleBatchLowStock ids prev !! i
  = Some (if array_includes ids (id p) then with_quantity p 5 else p).
Proof.
  intros H. unfold handleBatchLowStock. now rewrite list_lookup_fmap, H.
Qed.

End BatchLowStock.

(** C2. The bulk action sets the quantity of the selected records to 5 and
    leaves the other records as they are, but it leaves the time stamp of the
    selected records as it was too: on the mock catalog, loaded at
    [Sample.loadTime], marking product 2 at a later time gives a catalog in
    which product 2 has quantity 5 and still the load time as its
    [lastUpdated], and which differs from the catalog the described
    [batchSetQuantity] gives at [Sample.clickTime]. *)
Theorem handleBatchLowStock_keeps_old_time_stamp :
  map (fun p => (id p, quantity p, lastUpdated p))
      (App.handleBatchLowStock ["2"] Sample.catalog)
  = [ ("1", 15%Q, Sample.loadTime); ("2", 5%Q, Sample.loadTime);
      ("3", 8%Q, Sample.loadTime); ("4", 42%Q, Sample.loadTime);
      ("5", 120%Q, Sample.loadTime) ]
  /\ map lastUpdated (Spec.batchSetQuantity Sample.clickTime ["2"] 5 Sample.catalog)
     = [ Sample.loadTime; Sample.clickTime; Sample.loadTime; Sample.loadTime;
         Sample.loadTime ]
  /\ App.handleBatchLowStock ["2"] Sample.catalog
     <> Spec.batchSetQuantity Sample.clickTime ["2"] 5 Sample.catalog.
Proof.
  split; [reflexivity|]. split; [reflexivity|].
  intros H. apply (f_equal (map lastUpdated)) in H.
  rewrite handleBatchLowStock_lastUpdated in H. vm_compute in H.
  discriminate H.
Qed.

(** * Further properties of the code *)

(** ** Saving, deleting and the statistics *)

Section Catalog.

Import App.

Lemma handleSaveProduct_edit_ids e product prev :
  map id (handleSaveProduct (Some e) product prev) = map id prev.
Proof.
  unfold handleSaveProduct. rewrite List.map_map. apply List.map_ext.
  intros p. destruct (String.eqb (id p) (id product)) eqn:E; [|reflexivity].
  apply String.eqb_eq in E. now rewrite E.
Qed.

Lemma handleBatchLowStock_ids ids prev :
  map id (handleBatchLowStock ids prev) = map id prev.
Proof.
  unfold handleBatchLowStock. rewrite List.map_map. apply List.map_ext.
  intros p. now destruct (array_includes ids (id p)).
Qed.

Lemma filter_ids_NoDup (f : Product -> bool) prev :
  NoDup (map id prev) -> NoDup (map id (List.filter f prev)).
Proof.
  intros H. eapply sublist_NoDup; [exact H|].
  apply (fmap_sublist id), filter_sublist.
Qed.

Lemma filter_length_mono {A} (f g : A -> bool) (l : list A) :
  (forall x, f x = true -> g x = true) ->
  length (List.filter f l) <= length (List.filter g l).
Proof.
  intros H. induction l as [|x l IH]; simpl; [lia|].
  destruct (f x) eqn:E.
  - rewrite (H x E). simpl. lia.
  - destruct (g x); simpl; lia.
Qed.

Lemma filter_length_le {A} (f : A -> bool) (l : list A) :
  length (List.filter f l) <= length l.
Proof.
  induction l as [|x l IH]; simpl; [lia|]. destruct (f x); simpl; lia.
Qed.

Lemma isOut_isLow p : isOut p = true -> isLow p = true.
Proof.
  unfold isOut, isLow. intros H. apply eqb_eq in H. apply ltb_lt.
  rewrite H. reflexivity.
Qed.

Lemma count_perm (f : Product -> bool) l l' :
  Permutation l l' -> length (List.filter f l) = length (List.filter f l').
Proof.
  induction 1 as [|x l l' _ IH|x y l|l l' l'' _ IH1 _ IH2]; simpl.
  - reflexivity.
  - destruct (f x); simpl; congruence.
  - destruct (f x), (f y); reflexivity.
  - congruence.
Qed.

Lemma delete_keeps_others id_ prev q :
  In q (handleDeleteProduct true id_ prev) <-> In q prev /\ id q <> id_.
Proof.
  unfold handleDeleteProduct. rewrite List.filter_In, negb_true_iff.
  now rewrite String.eqb_neq.
Qed.

Lemma delete_length_unique p prev :
  NoDup (map id prev) -> In p prev ->
  S (length (handleDeleteProduct true (id p) prev)) = length prev.
Proof.
  unfold handleDeleteProduct.
  induction prev as [|a l IH]; intros Hnd Hin; [destruct Hin|].
  simpl in Hnd. apply NoDup_cons in Hnd as [Hfresh Hnd]. simpl.
  destruct (String.eqb (id a) (id p)) eqn:E; simpl.
  - apply String.eqb_eq in E. f_equal. f_equal. apply filter_all.
    intros q Hq. apply negb_true_iff, String.eqb_neq. intros E'.
    apply Hfresh. rewrite E, <- E'. apply list_elem_of_In. now apply List.in_map.
  - f_equal. apply IH; [assumption|]. destruct Hin as [->|Hin]; [|assumption].
    rewrite String.eqb_refl in E. discriminate.
Qed.

End Catalog.

(** X1. Saving an edited product keeps the sequence of ids and the length
    of the catalog: the saved product takes the place of each record that has
    its id, and every other record stays where and as it was. *)
Theorem save_edit_replaces_in_place :
  forall (e product : Product) (prev : list Product),
    map id (App.handleSaveProduct (Some e) product prev) = map id prev
    /\ length (App.handleSaveProduct (Some e) product prev) = length prev
    /\ (forall i : nat,
           App.handleSaveProduct (Some e) product prev !! i
           = (fun q => if String.eqb (id q) (id product) then product else q)
               <$> prev !! i).
Proof.
  intros e product prev. split; [apply handleSaveProduct_edit_ids|]. split.
  - unfold App.handleSaveProduct. apply length_map.
  - intros i. unfold App.handleSaveProduct. apply list_lookup_fmap.
Qed.

(** X2. Saving an edited product whose id no record of the catalog has
    changes nothing: the product is not added. *)
Theorem save_edit_unknown_id_changes_nothing :
  forall (e product : Product) (prev : list Product),
    ~ In (id product) (map id prev) ->
    App.handleSaveProduct (Some e) product prev = prev.
Proof.
  intros e product prev H. unfold App.handleSaveProduct.
  rewrite <- (List.map_id prev) at 2. apply List.map_ext_in.
  intros p Hp. destruct (String.eqb (id p) (id product)) eqn:E; [|reflexivity].
  apply String.eqb_eq in E. exfalso. apply H. rewrite <- E.
  now apply List.in_map.
Qed.

Lemma save_edit_unknown_id_changes_nothing_witness :
  App.handleSaveProduct (Some Sample.widget) Sample.widget Sample.catalog
  = Sample.catalog.
Proof.
  apply (save_edit_unknown_id_changes_nothing
           Sample.widget Sample.widget Sample.catalog).
  simpl. intros H.
  repeat (destruct H as [H|H]; [discriminate H|]). exact H.
Defined.

(** X3. Saving a new product puts it after the records the catalog had,
    which keep their places; the statistics then count one product more,
    the total value is the floating-point sum of the old total and the
    floating-point product of the new price and quantity, and the low-stock
    and out-of-stock counts grow by one exactly when the product's quantity
    is below 10, respectively 0. *)
Theorem save_new_appends_and_updates_stats :
  forall (product : Product) (prev : list Product),
    firstn (length prev) (App.handleSaveProduct None product prev) = prev
    /\ App.handleSaveProduct None product prev !! length prev = Some product
    /\ totalProducts (App.stats (App.handleSaveProduct None product prev))
       = S (totalProducts (App.stats prev))
    /\ totalValue (App.stats (App.handleSaveProduct None product prev))
       = PrimFloat.add (totalValue (App.stats prev))
           (PrimFloat.mul (Num.toDouble (price product))
              (Num.toDouble (quantity product)))
    /\ lowStockItems (App.stats (App.handleSaveProduct None product prev))
       = lowStockItems (App.stats prev) + (if App.isLow product then 1 else 0)
    /\ outOfStockItems (App.stats (App.handleSaveProduct None product prev))
       = outOfStockItems (App.stats prev) + (if App.isOut product then 1 else 0).
Proof.
  intros product prev. unfold App.handleSaveProduct.
  split; [|split; [|split; [|split; [|split]]]].
  - now rewrite take_app_length.
  - now rewrite list_lookup_middle.
  - simpl. rewrite List.length_app. simpl. lia.
  - apply totalValue_snoc.
  - rewrite !lowStockItems_unfold, List.filter_app, List.length_app. simpl.
    now destruct (App.isLow product).
  - rewrite !outOfStockItems_unfold, List.filter_app, List.length_app. simpl.
    now destruct (App.isOut product).
Qed.

(** X4. The three counts of the statistics do not depend on the order of the
    catalog: two catalogs that hold the same records in different orders
    have the same number of products, of low-stock and of out-of-stock
    records. The total value does depend on the order: the records priced
    0.1, 0.2 and 0.3 give one total in this order and another in the reverse
    order, because the running total is rounded after every record. *)
Theorem stats_counts_ignore_order_total_does_not :
  (forall l l' : list Product,
      Permutation l l' ->
      totalProducts (App.stats l) = totalProducts (App.stats l')
      /\ lowStockItems (App.stats l) = lowStockItems (App.stats l')
      /\ outOfStockItems (App.stats l) = outOfStockItems (App.stats l'))
  /\ Permutation Demo.dimes (rev Demo.dimes)
  /\ totalValue (App.stats Demo.dimes) <> totalValue (App.stats (rev Demo.dimes)).
Proof.
  split; [|split].
  - intros l l' H. split; [|split].
    + simpl. now apply Permutation_length.
    + rewrite !lowStockItems_unfold. now apply count_perm.
    + rewrite !outOfStockItems_unfold. now apply count_perm.
  - apply Permutation_rev.
  - intros H.
    apply (f_equal (fun f => PrimFloat.eqb f
                               (totalValue (App.stats (rev Demo.dimes))))) in H.
    vm_compute in H. discriminate H.
Qed.

Lemma stats_counts_ignore_order_total_does_not_witness :
  totalProducts (App.stats Sample.catalog)
  = totalProducts (App.stats (rev Sample.catalog))
  /\ lowStockItems (App.stats Sample.catalog)
     = lowStockItems (App.stats (rev Sample.catalog))
  /\ outOfStockItems (App.stats Sample.catalog)
     = outOfStockItems (App.stats (rev Sample.catalog)).
Proof.
  destruct stats_counts_ignore_order_total_does_not as [H _].
  apply (H Sample.catalog (rev Sample.catalog)).
  apply Permutation_rev.
Defined.

(** X5. In every catalog the out-of-stock records are among the low-stock
    records, and both counts stay within the number of products. *)
Theorem stats_counts_ordered :
  forall products : list Product,
    outOfStockItems (App.stats products) <= lowStockItems (App.stats products)
    /\ lowStockItems (App.stats products) <= totalProducts (App.stats products).
Proof.
  intros products. rewrite lowStockItems_unfold, outOfStockItems_unfold. split.
  - apply filter_length_mono, isOut_isLow.
  - apply filter_length_le.
Qed.

(** X6. A catalog whose ids are pairwise different keeps that property under
    every handler: a delete, a batch delete, marking as low stock and saving
    an edited product always, and saving a new product when its id is not yet
    in the catalog. *)
Theorem handlers_keep_ids_unique :
  forall prev : list Product,
    NoDup (map id prev) ->
    (forall c id_, NoDup (map id (App.handleDeleteProduct c id_ prev)))
    /\ (forall c ids, NoDup (map id (App.handleBatchDelete c ids prev)))
    /\ (forall ids, NoDup (map id (App.handleBatchLowStock ids prev)))
    /\ (forall e product, NoDup (map id (App.handleSaveProduct (Some e) product prev)))
    /\ (forall product,
           ~ In (id product) (map id prev) ->
           NoDup (map id (App.handleSaveProduct None product prev))).
Proof.
  intros prev H. split; [|split; [|split; [|split]]].
  - intros [] id_; [now apply filter_ids_NoDup | exact H].
  - intros [] ids; [now apply filter_ids_NoDup | exact H].
  - intros ids. now rewrite handleBatchLowStock_ids.
  - intros e product. now rewrite handleSaveProduct_edit_ids.
  - intros product Hfresh. unfold App.handleSaveProduct.
    rewrite List.map_app. apply NoDup_app. split; [exact H|]. split.
    + intros x Hx Hx'. simpl in Hx'. apply list_elem_of_In in Hx, Hx'.
      destruct Hx' as [<-|[]]. contradiction.
    + simpl. apply NoDup_singleton.
Qed.

Lemma handlers_keep_ids_unique_witness :
  NoDup (map id (App.handleBatchLowStock ["2"; "4"] Sample.catalog))
  /\ NoDup (map id (App.handleSaveProduct None Sample.widget Sample.catalog)).
Proof.
  assert (Hnd : NoDup (map id Sample.catalog)).
  { apply (bool_decide_unpack _). vm_compute. exact I. }
  destruct (handlers_keep_ids_unique Sample.catalog Hnd)
    as (_ & _ & Hlow & _ & Hnew).
  split; [apply Hlow|]. apply Hnew. simpl. intros H.
  repeat (destruct H as [H|H]; [discriminate H|]). exact H.
Defined.

(** X7. In a catalog with pairwise different ids, deleting the id of one of
    its records removes exactly that one record: the catalog gets shorter by
    one, no record with the id is left, and the other records all stay. *)
Theorem delete_removes_exactly_one :
  forall (p : Product) (prev : list Product),
    NoDup (map id prev) ->
    In p prev ->
    S (length (App.handleDeleteProduct true (id p) prev)) = length prev
    /\ ~ In (id p) (map id (App.handleDeleteProduct true (id p) prev))
    /\ (forall q,
           In q (App.handleDeleteProduct true (id p) prev) <->
           In q prev /\ q <> p).
Proof.
  intros p prev Hnd Hin. split; [now apply delete_length_unique|]. split.
  - intros H. apply List.in_map_iff in H as (q & E & Hq).
    apply delete_keeps_others in Hq as [_ Hq]. contradiction.
  - intros q. rewrite delete_keeps_others. split.
    + intros [Hq Hne]. split; [assumption|]. intros ->. contradiction.
    + intros [Hq Hne]. split; [assumption|]. intros E. apply Hne.
      apply list_elem_of_In in Hq, Hin.
      apply list_elem_of_lookup in Hq as [i Hi], Hin as [j Hj].
      assert (i = j).
      { eapply NoDup_lookup; [exact Hnd| |].
        - rewrite list_lookup_fmap, Hi. reflexivity.
        - rewrite list_lookup_fmap, Hj. simpl. now rewrite E. }
      subst j. congruence.
Qed.

Lemma delete_removes_exactly_one_witness :
  S (length (App.handleDeleteProduct true "w1" [Sample.widget; Sample.gadget])) = 2
  /\ ~ In "w1" (map id (App.handleDeleteProduct true "w1"
                          [Sample.widget; Sample.gadget])).
Proof.
  assert (Hnd : NoDup (map id [Sample.widget; Sample.gadget])).
  { apply (bool_decide_unpack _). vm_compute. exact I. }
  destruct (delete_removes_exactly_one Sample.widget
              [Sample.widget; Sample.gadget] Hnd (or_introl eq_refl))
    as (Hlen & Hgone & _).
  split; [exact Hlen | exact Hgone].
Defined.

(** ** The category chart *)

Section CategoryChart.

Import App.

Lemma bump_sum key counts :
  sum_list (map snd (bump key counts)) = S (sum_list (map snd counts)).
Proof.
  induction counts as [|[k v] rest IH]; simpl; [reflexivity|].
  destruct (String.eqb k key); simpl.
  - destruct (Nat.eqb_spec v 0); subst; simpl; lia.
  - rewrite IH. lia.
Qed.

Lemma bump_keys key counts :
  map fst (bump key counts)
  = if bool_decide (key ∈ map fst counts) then map fst counts
    else map fst counts ++ [key].
Proof.
  induction counts as [|[k v] rest IH]; simpl; [reflexivity|].
  destruct (String.eqb k key) eqn:E; simpl.
  - apply String.eqb_eq in E. subst k.
    rewrite bool_decide_eq_true_2; [reflexivity|]. apply elem_of_cons. now left.
  - apply String.eqb_neq in E. rewrite IH.
    destruct (bool_decide (key ∈ map fst rest)) eqn:D.
    + apply bool_decide_eq_true_1 in D.
      rewrite bool_decide_eq_true_2; [reflexivity|]. apply elem_of_cons. now right.
    + apply bool_decide_eq_false_1 in D.
      rewrite bool_decide_eq_false_2; [reflexivity|].
      intros [?|?]%elem_of_cons; [congruence|contradiction].
Qed.

Lemma bump_NoDup key counts :
  NoDup (map fst counts) -> NoDup (map fst (bump key counts)).
Proof.
  intros H. rewrite bump_keys.
  destruct (bool_decide (key ∈ map fst counts)) eqn:D; [exact H|].
  apply bool_decide_eq_false_1 in D. apply NoDup_app. split; [exact H|]. split.
  - intros x Hx Hx'. apply list_elem_of_singleton in Hx'. now subst x.
  - apply NoDup_singleton.
Qed.

(** The object after [bump], seen as a finite map. *)
Lemma bump_map key counts :
  (list_to_map (bump key counts) : gmap string nat)
  = <[ key := S (default 0 ((list_to_map counts : gmap string nat) !! key)) ]>
      (list_to_map counts).
Proof.
  induction counts as [|[k v] rest IH]; simpl; [reflexivity|].
  destruct (String.eqb k key) eqn:E; simpl.
  - apply String.eqb_eq in E. subst k.
    rewrite lookup_insert_eq, insert_insert_eq. simpl. f_equal.
    destruct (Nat.eqb_spec v 0); subst; lia.
  - apply String.eqb_neq in E. rewrite IH, lookup_insert_ne by exact E.
    now apply insert_insert_ne.
Qed.

Lemma categoryCounts_snoc l p :
  categoryCounts (l ++ [p]) = bump (Category_value (category p)) (categoryCounts l).
Proof. unfold categoryCounts. now rewrite List.fold_left_app. Qed.

Lemma categoryData_counts l : categoryData l = categoryCounts l.
Proof.
  unfold categoryData. rewrite <- (List.map_id (categoryCounts l)) at 2.
  apply List.map_ext. now intros [k v].
Qed.

Lemma categoryCounts_NoDup l : NoDup (map fst (categoryCounts l)).
Proof.
  induction l as [|p l IH] using rev_ind; [constructor|].
  rewrite categoryCounts_snoc. now apply bump_NoDup.
Qed.

End CategoryChart.

Lemma categoryCounts_lookup (l : list Product) (k : string) :
  (list_to_map (App.categoryCounts l) : gmap string nat) !! k
  = let n := length (List.filter
                       (fun p => String.eqb (Category_value (category p)) k) l) in
    if Nat.eqb n 0 then None else Some n.
Proof.
  induction l as [|p l IH] using rev_ind; [reflexivity|].
  rewrite categoryCounts_snoc, bump_map, List.filter_app, List.length_app.
  simpl in *. destruct (String.eqb (Category_value (category p)) k) eqn:E.
  - apply String.eqb_eq in E. subst k. rewrite lookup_insert_eq, IH. simpl.
    destruct (Nat.eqb_spec
                (length (List.filter
                           (fun p0 => String.eqb (Category_value (category p0))
                                        (Category_value (category p))) l)) 0)
      as [E0|E0].
    + rewrite E0. reflexivity.
    + simpl. destruct (Nat.eqb_spec (length (List.filter
                           (fun p0 => String.eqb (Category_value (category p0))
                                        (Category_value (category p))) l) + 1) 0);
        [lia|]. f_equal. lia.
  - apply String.eqb_neq in E. rewrite lookup_insert_ne by exact E.
    rewrite IH. simpl. now rewrite Nat.add_0_r.
Qed.

(** X8. The category chart data has one entry per category that occurs in
    the catalog, each under a different name: a name and a number form an
    entry exactly when the number is the number of records of that category
    and is not zero. The numbers of all entries add up to the number of
    products. *)
Theorem categoryData_counts_each_present_category :
  forall products : list Product,
    NoDup (map fst (App.categoryData products))
    /\ (forall (k : string) (n : nat),
           In (k, n) (App.categoryData products) <->
           n = length (List.filter
                         (fun p => String.eqb (Category_value (category p)) k)
                         products)
           /\ 0 < n)
    /\ sum_list (map snd (App.categoryData products)) = length products.
Proof.
  intros products. rewrite categoryData_counts.
  split; [apply categoryCounts_NoDup|]. split.
  - intros k n. rewrite <- list_elem_of_In.
    rewrite (elem_of_list_to_map (M := gmap string) _ _ _
               (categoryCounts_NoDup products)).
    rewrite categoryCounts_lookup. simpl.
    destruct (Nat.eqb_spec
                (length (List.filter
                           (fun p => String.eqb (Category_value (category p)) k)
                           products)) 0) as [E|E].
    + rewrite E. split; [discriminate | lia].
    + split.
      * intros [= <-]. split; [reflexivity | lia].
      * intros [-> _]. reflexivity.
  - induction products as [|p l IH] using rev_ind; [reflexivity|].
    rewrite categoryCounts_snoc, bump_sum, IH, List.length_app. simpl. lia.
Qed.

(** ** Selection and batch actions of the table *)

Section TableActions.

Import InventoryTable.

Lemma array_includes_elements (selected : gset string) (x : string) :
  array_includes (elements selected) x = true <-> x ∈ selected.
Proof.
  now rewrite array_includes_In, <- list_elem_of_In, elem_of_elements.
Qed.

Lemma array_includes_elements_decide (selected : gset string) (x : string) :
  array_includes (elements selected) x = bool_decide (x ∈ selected).
Proof.
  destruct (bool_decide (x ∈ selected)) eqn:D.
  - apply bool_decide_eq_true_1 in D. now apply array_includes_elements.
  - apply bool_decide_eq_false_1 in D.
    destruct (array_includes (elements selected) x) eqn:A; [|reflexivity].
    apply array_includes_elements in A. contradiction.
Qed.

Lemma ids_of_view_elem (filtered : list Product) (x : string) :
  x ∈ (list_to_set (map id filtered) : gset string) <->
  exists p, In p filtered /\ id p = x.
Proof.
  rewrite elem_of_list_to_set, list_elem_of_In, List.in_map_iff.
  split; intros (p & H1 & H2); exists p; tauto.
Qed.

Lemma allFilteredSelected_false filtered selected :
  allFilteredSelected filtered selected = false <->
  filtered = [] \/ exists p, In p filtered /\ id p ∉ selected.
Proof.
  split.
  - intros H. destruct filtered as [|a l]; [now left|right].
    unfold allFilteredSelected in H. simpl Nat.ltb in H.
    rewrite andb_true_l in H.
    apply not_true_iff_false in H. rewrite List.forallb_forall in H.
    destruct (List.existsb (fun p => negb (bool_decide (id p ∈ selected))) (a :: l)) eqn:E.
    + apply List.existsb_exists in E as (p & Hp & Hn). exists p. split; [exact Hp|].
      apply negb_true_iff in Hn. now apply bool_decide_eq_false_1 in Hn.
    + exfalso. apply H. intros p Hp.
      destruct (bool_decide (id p ∈ selected)) eqn:D; [reflexivity|].
      assert (List.existsb (fun p => negb (bool_decide (id p ∈ selected))) (a :: l) = true).
      { apply List.existsb_exists. exists p. split; [exact Hp|]. now rewrite D. }
      congruence.
  - intros H. apply not_true_iff_false. intros T.
    apply allFilteredSelected_true in T as [Hne Hall].
    destruct H as [->|(p & Hp & Hn)]; [congruence|]. apply Hn, Hall, Hp.
Qed.

Lemma lowStock_after_batch ids prev :
  length (List.filter (fun p => array_includes ids (id p)) prev)
  <= length (List.filter App.isLow (App.handleBatchLowStock ids prev)).
Proof.
  unfold App.handleBatchLowStock.
  induction prev as [|p l IH]; simpl; [lia|].
  destruct (array_includes ids (id p)); simpl.
  - change (App.isLow (with_quantity p 5)) with true. simpl. lia.
  - destruct (App.isLow p); simpl; lia.
Qed.

End TableActions.

(** X9. Ticking a row's checkbox flips the membership of that row's id in the
    selection and of no other id; ticking it twice gives the selection back. *)
Theorem toggleSelection_flips_one_id :
  forall (id_ : string) (selected : gset string),
    InventoryTable.toggleSelection id_ (InventoryTable.toggleSelection id_ selected)
    = selected
    /\ (id_ ∈ InventoryTable.toggleSelection id_ selected <-> id_ ∉ selected)
    /\ InventoryTable.toggleSelection id_ selected ∖ {[ id_ ]} = selected ∖ {[ id_ ]}.
Proof.
  intros id_ selected. unfold InventoryTable.toggleSelection.
  destruct (decide (id_ ∈ selected)) as [Hin|Hout].
  - rewrite (bool_decide_eq_true_2 _ Hin).
    rewrite bool_decide_eq_false_2 by set_solver.
    split; [|split].
    + apply set_eq. intros x. destruct (decide (x = id_)); set_solver.
    + set_solver.
    + set_solver.
  - rewrite (bool_decide_eq_false_2 _ Hout).
    rewrite bool_decide_eq_true_2 by set_solver.
    split; [|split]; set_solver.
Qed.

(** X10. The select-all checkbox on a view that is not empty flips the
    all-visible-selected state. Clicking it twice restores the selection when
    every visible id was selected, and otherwise ends with every visible id
    removed from the selection. *)
Theorem handleSelectAll_twice :
  forall (filtered : list Product) (selected : gset string),
    filtered <> [] ->
    InventoryTable.allFilteredSelected filtered
      (InventoryTable.handleSelectAll filtered selected)
    = negb (InventoryTable.allFilteredSelected filtered selected)
    /\ InventoryTable.handleSelectAll filtered
         (InventoryTable.handleSelectAll filtered selected)
       = if InventoryTable.allFilteredSelected filtered selected
         then selected
         else selected ∖ list_to_set (map id filtered).
Proof.
  intros filtered selected Hne.
  destruct (InventoryTable.allFilteredSelected filtered selected) eqn:E; simpl.
  - pose proof E as E'. apply allFilteredSelected_true in E' as [_ Hall].
    rewrite (handleSelectAll_all_selected _ _ Hne Hall).
    assert (Hnone : InventoryTable.allFilteredSelected filtered
                      (selected ∖ list_to_set (map id filtered)) = false).
    { apply allFilteredSelected_false. right.
      destruct filtered as [|a l]; [congruence|]. exists a.
      split; [now left|]. set_solver. }
    split; [exact Hnone|].
    rewrite handleSelectAll_otherwise.
    + apply set_eq. intros x. rewrite elem_of_union, elem_of_difference.
      split; [intros [[? _]|Hx]; [assumption|]|].
      * apply ids_of_view_elem in Hx as (p & Hp & <-). now apply Hall.
      * intros Hx. destruct (decide (x ∈ (list_to_set (map id filtered) : gset string)));
          [now right | now left].
    + intros T. apply allFilteredSelected_true in T. congruence.
  - assert (Hnot : ~ (filtered <> [] /\ forall p, In p filtered -> id p ∈ selected)).
    { intros T. apply allFilteredSelected_true in T. congruence. }
    rewrite (handleSelectAll_otherwise _ _ Hnot).
    assert (Hall : forall p, In p filtered ->
                     id p ∈ selected ∪ list_to_set (map id filtered)).
    { intros p Hp. apply elem_of_union_r, ids_of_view_elem. now exists p. }
    split.
    + apply allFilteredSelected_true. now split.
    + rewrite (handleSelectAll_all_selected _ _ Hne Hall). set_solver.
Qed.

Lemma handleSelectAll_twice_witness :
  InventoryTable.handleSelectAll (firstn 2 Sample.catalog)
    (InventoryTable.handleSelectAll (firstn 2 Sample.catalog) {[ "1"; "2"; "5" ]})
  = {[ "1"; "2"; "5" ]}.
Proof.
  destruct (handleSelectAll_twice (firstn 2 Sample.catalog) {[ "1"; "2"; "5" ]})
    as [_ H]; [discriminate|].
  exact H.
Defined.

(** X13. Marking the selection as low stock keeps the ids and the order of
    the catalog; every record whose id was selected then has quantity 5, so
    it is low on stock, not out of stock and passes the table's [Low Stock]
    filter; every record whose id was not selected is a record of the old
    catalog; and when two or more records had a selected id the low stock
    banner is shown afterwards. *)
Theorem batch_low_stock_click_effect :
  forall (w : InventoryTable.World) (st : InventoryTable.State),
    let selected := InventoryTable.selectedIds (InventoryTable.table w) in
    let after := InventoryTable.products (InventoryTable.handleBatchLowStockClick w) in
    map id after = map id (InventoryTable.products w)
    /\ (forall p, In p after -> id p ∈ selected ->
          quantity p = 5%Q
          /\ App.isLow p = true /\ App.isOut p = false
          /\ InventoryTable.matchesStock
               (InventoryTable.set_stockFilter "Low Stock" st) p = true)
    /\ (forall p, In p after -> id p ∉ selected ->
          In p (InventoryTable.products w))
    /\ (2 <= length (List.filter (fun p => bool_decide (id p ∈ selected))
                       (InventoryTable.products w)) ->
        App.showsLowStockBanner after = true).
Proof.
  intros w st selected after. subst after. simpl.
  split; [apply handleBatchLowStock_ids|].
  assert (Hsrc : forall p,
             In p (App.handleBatchLowStock (elements selected)
                     (InventoryTable.products w)) ->
             exists q, In q (InventoryTable.products w)
               /\ p = if bool_decide (id q ∈ selected) then with_quantity q 5 else q).
  { intros p Hp. unfold App.handleBatchLowStock in Hp.
    apply List.in_map_iff in Hp as (q & <- & Hq). exists q. split; [exact Hq|].
    now rewrite array_includes_elements_decide. }
  split; [|split].
  - intros p Hp Hsel. destruct (Hsrc p Hp) as (q & Hq & ->).
    destruct (bool_decide (id q ∈ selected)) eqn:D.
    + repeat split.
    + apply bool_decide_eq_false_1 in D. contradiction.
  - intros p Hp Hsel. destruct (Hsrc p Hp) as (q & Hq & ->).
    destruct (bool_decide (id q ∈ selected)) eqn:D; [|exact Hq].
    apply bool_decide_eq_true_1 in D. contradiction.
  - intros Hcount. unfold App.showsLowStockBanner, App.LOW_STOCK_THRESHOLD.
    apply Nat.ltb_lt. rewrite lowStockItems_unfold.
    eapply Nat.lt_le_trans; [|apply lowStock_after_batch].
    erewrite List.filter_ext; [exact Hcount|].
    intros p. simpl. apply array_includes_elements_decide.
Qed.

Lemma batch_low_stock_click_effect_witness :
  App.showsLowStockBanner
    (InventoryTable.products (InventoryTable.handleBatchLowStockClick Demo.picked))
  = true
  /\ quantity (with_quantity (hd Sample.widget Sample.catalog) 5) = 5%Q.
Proof.
  destruct (batch_low_stock_click_effect Demo.picked InventoryTable.initial)
    as (_ & Hsel & _ & H).
  split.
  - apply H. vm_compute. lia.
  - apply (Hsel (with_quantity (hd Sample.widget Sample.catalog) 5)).
    + left. reflexivity.
    + apply (bool_decide_unpack _). vm_compute. exact I.
Defined.

Lemma filter_length_split {A} (f : A -> bool) (l : list A) :
  length (List.filter f l) + length (List.filter (fun x => negb (f x)) l)
  = length l.
Proof.
  induction l as [|x l IH]; simpl; [reflexivity|].
  destruct (f x); simpl; lia.
Qed.

(** X14. A confirmed batch delete from the table leaves exactly the records
    whose id is not in the selection, in their old order, so the catalog
    shrinks by the number of records that had a selected id; a batch delete
    that is cancelled in the confirmation dialog leaves the catalog as it
    was, and the selection is emptied all the same. *)
Theorem batch_delete_click_effect :
  forall w : InventoryTable.World,
    let selected := InventoryTable.selectedIds (InventoryTable.table w) in
    (forall p,
        In p (InventoryTable.products (InventoryTable.handleBatchDeleteClick true w))
        <-> In p (InventoryTable.products w) /\ id p ∉ selected)
    /\ sublist
         (InventoryTable.products (InventoryTable.handleBatchDeleteClick true w))
         (InventoryTable.products w)
    /\ length (InventoryTable.products (InventoryTable.handleBatchDeleteClick true w))
       + length (List.filter (fun p => bool_decide (id p ∈ selected))
                   (InventoryTable.products w))
       = length (InventoryTable.products w)
    /\ InventoryTable.products (InventoryTable.handleBatchDeleteClick false w)
       = InventoryTable.products w
    /\ InventoryTable.selectedIds
         (InventoryTable.table (InventoryTable.handleBatchDeleteClick false w)) = ∅.
Proof.
  intros w selected. simpl. unfold App.handleBatchDelete.
  split; [|split; [|split; [|split; reflexivity]]].
  - intros p. rewrite List.filter_In, negb_true_iff, array_includes_elements_decide.
    rewrite bool_decide_eq_false. reflexivity.
  - apply filter_sublist.
  - rewrite <- (filter_length_split
                  (fun p => bool_decide (id p ∈ selected)) (InventoryTable.products w)).
    rewrite Nat.add_comm. f_equal. f_equal. apply List.filter_ext.
    intros p. now rewrite array_includes_elements_decide.
Qed.

(** ** Theme *)

(** X17. The theme survives a reload: after the theme effect has run for a
    value of [isDarkMode], the initialiser reads that value back from the
    browser, whatever the system preference is; the document carries the
    class [dark] exactly in dark mode; running the effect again changes
    nothing; and the effect removes no entry of the storage. *)
Theorem theme_round_trip :
  forall (isDarkMode prefersDark : bool) (b : App.Browser),
    App.initialIsDarkMode true (App.themeEffect isDarkMode b) prefersDark
    = isDarkMode
    /\ ("dark" ∈ App.classList (App.themeEffect isDarkMode b) <-> isDarkMode = true)
    /\ App.themeEffect isDarkMode (App.themeEffect isDarkMode b)
       = App.themeEffect isDarkMode b
    /\ delete "lumina-theme" (App.localStorage (App.themeEffect isDarkMode b))
       = delete "lumina-theme" (App.localStorage b).
Proof.
  intros [] prefersDark [storage classes]; unfold App.initialIsDarkMode;
    simpl; rewrite lookup_insert_eq; simpl.
  - split; [reflexivity|]. split; [set_solver|]. split.
    + f_equal; [apply insert_insert_eq | set_solver].
    + apply delete_insert_eq.
  - split; [reflexivity|]. split; [set_solver|]. split.
    + f_equal; [apply insert_insert_eq | set_solver].
    + apply delete_insert_eq.
Qed.

(** X18. What the initialiser of the theme falls back to: without a stored
    value, or with an empty one, it follows the system preference; with a
    stored value other than [dark] it chooses light mode whatever the system
    preference is; and where there is no [window] it chooses light mode. *)
Theorem theme_initial_fallbacks :
  forall (b : App.Browser) (prefersDark : bool),
    (App.localStorage b !! "lumina-theme" = None ->
     App.initialIsDarkMode true b prefersDark = prefersDark)
    /\ (App.localStorage b !! "lumina-theme" = Some "" ->
        App.initialIsDarkMode true b prefersDark = prefersDark)
    /\ (forall saved,
           App.localStorage b !! "lumina-theme" = Some saved ->
           saved <> "" -> saved <> "dark" ->
           App.initialIsDarkMode true b prefersDark = false)
    /\ App.initialIsDarkMode false b prefersDark = false.
Proof.
  intros b prefersDark. unfold App.initialIsDarkMode.
  split; [|split; [|split; [|reflexivity]]].
  - now intros ->.
  - now intros ->.
  - intros saved -> Hne Hnd. unfold App.truthy.
    apply String.eqb_neq in Hne, Hnd. now rewrite Hne, Hnd.
Qed.

Lemma theme_initial_fallbacks_witness :
  App.initialIsDarkMode true Demo.freshBrowser true = true
  /\ App.initialIsDarkMode true Demo.oddBrowser true = false.
Proof.
  split.
  - destruct (theme_initial_fallbacks Demo.freshBrowser true) as (H & _).
    apply H. reflexivity.
  - destruct (theme_initial_fallbacks Demo.oddBrowser true) as (_ & _ & H & _).
    apply (H "blue"); [reflexivity | discriminate | discriminate].
Defined.

(** ** The stock filter and the search box *)

Section Buckets.

Import InventoryTable.

Local Open Scope Q_scope.

Lemma bucket_in_stock st p :
  matchesStock (set_stockFilter "In Stock" st) p = Num.geb (quantity p) 10.
Proof. reflexivity. Qed.

Lemma bucket_low_stock st p :
  matchesStock (set_stockFilter "Low Stock" st) p
  = (Num.gtb (quantity p) 0 && Num.ltb (quantity p) 10)%bool.
Proof. reflexivity. Qed.

Lemma bucket_out_of_stock st p :
  matchesStock (set_stockFilter "Out of Stock" st) p = Num.eqb (quantity p) 0.
Proof. reflexivity. Qed.

(** How the three bucket tests fall for a number. *)
Lemma bucket_tests (q : Q) :
  (Num.geb q 10, (Num.gtb q 0 && Num.ltb q 10)%bool, Num.eqb q 0)
  = if Qlt_le_dec q 0 then (false, false, false)
    else if Qeq_dec q 0 then (false, false, true)
    else if Qlt_le_dec q 10 then (false, true, false)
    else (true, false, false).
Proof.
  assert (Hge : forall b, (Num.geb q 10 = b) <-> (if b then 10 <= q else q < 10)).
  { intros []; [apply geb_le|]. split.
    - intros H. apply Qnot_le_lt. intros H'. apply geb_le in H'. congruence.
    - intros H. destruct (Num.geb q 10) eqn:E; [|reflexivity].
      apply geb_le in E. exfalso. exact (Qlt_not_le _ _ H E). }
  assert (Hgt : forall b, (Num.gtb q 0 = b) <-> (if b then 0 < q else q <= 0)).
  { intros []; [apply gtb_lt|]. split.
    - intros H. apply Qnot_lt_le. intros H'. apply gtb_lt in H'. congruence.
    - intros H. destruct (Num.gtb q 0) eqn:E; [|reflexivity].
      apply gtb_lt in E. exfalso. exact (Qlt_not_le _ _ E H). }
  assert (Hlt : forall b, (Num.ltb q 10 = b) <-> (if b then q < 10 else 10 <= q)).
  { intros []; [apply ltb_lt|]. split.
    - intros H. apply Qnot_lt_le. intros H'. apply ltb_lt in H'. congruence.
    - intros H. destruct (Num.ltb q 10) eqn:E; [|reflexivity].
      apply ltb_lt in E. exfalso. exact (Qlt_not_le _ _ E H). }
  assert (Heq : forall b, (Num.eqb q 0 = b) <-> (if b then q == 0 else ~ q == 0)).
  { intros []; [apply eqb_eq | apply eqb_neq]. }
  destruct (Qlt_le_dec q 0) as [Hneg|Hpos].
  - rewrite (proj2 (Hge false)), (proj2 (Hgt false)), (proj2 (Heq false)).
    + reflexivity.
    + intros E. rewrite E in Hneg. exact (Qlt_irrefl _ Hneg).
    + now apply Qlt_le_weak.
    + eapply Qlt_trans; [exact Hneg | reflexivity].
  - destruct (Qeq_dec q 0) as [E|E].
    + rewrite (proj2 (Hge false)), (proj2 (Hgt false)), (proj2 (Heq true)).
      * reflexivity.
      * exact E.
      * rewrite E. apply Qle_refl.
      * rewrite E. reflexivity.
    + assert (0 < q).
      { apply Qnot_le_lt. intros H. apply E. now apply Qle_antisym. }
      destruct (Qlt_le_dec q 10) as [Hlow|Hhigh].
      * rewrite (proj2 (Hge false)), (proj2 (Hgt true)), (proj2 (Hlt true)),
          (proj2 (Heq false)); auto.
      * rewrite (proj2 (Hge true)), (proj2 (Hgt true)), (proj2 (Hlt false)),
          (proj2 (Heq false)); auto.
Qed.

Lemma bucket_view_In f st products p :
  In p (filteredProducts (set_stockFilter f st) products) <->
  In p products /\ matchesSearch st p = true /\ matchesCategory st p = true
  /\ matchesStock (set_stockFilter f st) p = true.
Proof. exact (filteredProducts_In (set_stockFilter f st) products p). Qed.

End Buckets.

Lemma bucket_counts (st : InventoryTable.State) (products : list Product) :
  (forall p, In p products -> (0 <= quantity p)%Q) ->
  length (InventoryTable.filteredProducts
            (InventoryTable.set_stockFilter "All" st) products)
  = length (InventoryTable.filteredProducts
              (InventoryTable.set_stockFilter "In Stock" st) products)
    + length (InventoryTable.filteredProducts
                (InventoryTable.set_stockFilter "Low Stock" st) products)
    + length (InventoryTable.filteredProducts
                (InventoryTable.set_stockFilter "Out of Stock" st) products).
Proof.
  unfold InventoryTable.filteredProducts.
  induction products as [|p l IH]; intros Hpos; [reflexivity|].
  assert (IH' := IH (fun q Hq => Hpos q (or_intror Hq))). clear IH.
  assert (Hp := Hpos p (or_introl eq_refl)).
  cbn [List.filter].
  rewrite bucket_in_stock, bucket_low_stock, bucket_out_of_stock.
  change (InventoryTable.matchesStock (InventoryTable.set_stockFilter "All" st) p)
    with true.
  change (InventoryTable.matchesSearch (InventoryTable.set_stockFilter _ st) p)
    with (InventoryTable.matchesSearch st p).
  change (InventoryTable.matchesCategory (InventoryTable.set_stockFilter _ st) p)
    with (InventoryTable.matchesCategory st p).
  pose proof (bucket_tests (quantity p)) as T.
  destruct (Qlt_le_dec (quantity p) 0) as [Hneg|_].
  { exfalso. exact (Qlt_not_le _ _ Hneg Hp). }
  destruct (InventoryTable.matchesSearch st p && InventoryTable.matchesCategory st p);
    simpl; [|exact IH'].
  destruct (Qeq_dec (quantity p) 0); [|destruct (Qlt_le_dec (quantity p) 10)];
    injection T as -> -> ->; simpl; lia.
Qed.

(** X11. The three stock buckets of the table never overlap: under one
    search text and category filter no record is in two of the views
    [In Stock], [Low Stock] and [Out of Stock]. When no quantity of the
    catalog is negative the three views together have as many rows as the
    view [All]; a record with a negative quantity is in none of the three. *)
Theorem stock_buckets_partition :
  forall (st : InventoryTable.State) (products : list Product),
    let view f :=
      InventoryTable.filteredProducts (InventoryTable.set_stockFilter f st) products in
    (forall p, ~ (In p (view "In Stock") /\ In p (view "Low Stock")))
    /\ (forall p, ~ (In p (view "In Stock") /\ In p (view "Out of Stock")))
    /\ (forall p, ~ (In p (view "Low Stock") /\ In p (view "Out of Stock")))
    /\ ((forall p, In p products -> (0 <= quantity p)%Q) ->
        length (view "All")
        = length (view "In Stock") + length (view "Low Stock")
          + length (view "Out of Stock"))
    /\ (forall p, (quantity p < 0)%Q ->
          ~ In p (view "In Stock") /\ ~ In p (view "Low Stock")
          /\ ~ In p (view "Out of Stock")).
Proof.
  intros st products view. subst view. cbv beta.
  assert (Hb : forall f p,
             In p (InventoryTable.filteredProducts
                     (InventoryTable.set_stockFilter f st) products) ->
             InventoryTable.matchesStock (InventoryTable.set_stockFilter f st) p = true).
  { intros f p H. now apply bucket_view_In in H. }
  split; [|split; [|split; [|split]]].
  - intros p [H1 H2]. apply Hb in H1, H2.
    rewrite bucket_in_stock in H1. rewrite bucket_low_stock in H2.
    pose proof (bucket_tests (quantity p)) as T. rewrite H1, H2 in T.
    destruct (Qlt_le_dec (quantity p) 0); [discriminate|].
    destruct (Qeq_dec (quantity p) 0); [discriminate|].
    destruct (Qlt_le_dec (quantity p) 10); discriminate.
  - intros p [H1 H2]. apply Hb in H1, H2.
    rewrite bucket_in_stock in H1. rewrite bucket_out_of_stock in H2.
    pose proof (bucket_tests (quantity p)) as T. rewrite H1, H2 in T.
    destruct (Qlt_le_dec (quantity p) 0); [discriminate|].
    destruct (Qeq_dec (quantity p) 0); [discriminate|].
    destruct (Qlt_le_dec (quantity p) 10); discriminate.
  - intros p [H1 H2]. apply Hb in H1, H2.
    rewrite bucket_low_stock in H1. rewrite bucket_out_of_stock in H2.
    pose proof (bucket_tests (quantity p)) as T. rewrite H1, H2 in T.
    destruct (Qlt_le_dec (quantity p) 0); [discriminate|].
    destruct (Qeq_dec (quantity p) 0); [discriminate|].
    destruct (Qlt_le_dec (quantity p) 10); discriminate.
  - apply bucket_counts.
  - intros p Hneg. pose proof (bucket_tests (quantity p)) as T.
    destruct (Qlt_le_dec (quantity p) 0) as [_|Hpos].
    2: { exfalso. exact (Qlt_not_le _ _ Hneg Hpos). }
    injection T as T1 T2 T3.
    split; [|split]; intros H; apply Hb in H.
    + rewrite bucket_in_stock in H. congruence.
    + rewrite bucket_low_stock in H. congruence.
    + rewrite bucket_out_of_stock in H. congruence.
Qed.

Lemma stock_buckets_partition_witness :
  length (InventoryTable.filteredProducts
            (InventoryTable.set_stockFilter "All" InventoryTable.initial)
            Sample.catalog)
  = length (InventoryTable.filteredProducts
              (InventoryTable.set_stockFilter "In Stock" InventoryTable.initial)
              Sample.catalog)
    + length (InventoryTable.filteredProducts
                (InventoryTable.set_stockFilter "Low Stock" InventoryTable.initial)
                Sample.catalog)
    + length (InventoryTable.filteredProducts
                (InventoryTable.set_stockFilter "Out of Stock" InventoryTable.initial)
                Sample.catalog)
  /\ ~ In Demo.returned
       (InventoryTable.filteredProducts
          (InventoryTable.set_stockFilter "Low Stock" InventoryTable.initial)
          (Demo.returned :: Sample.catalog)).
Proof.
  split.
  - destruct (stock_buckets_partition InventoryTable.initial Sample.catalog)
      as (_ & _ & _ & H & _).
    apply H. intros p Hp. simpl in Hp.
    repeat (destruct Hp as [<-|Hp]; [discriminate|]). destruct Hp.
  - destruct (stock_buckets_partition InventoryTable.initial
                (Demo.returned :: Sample.catalog)) as (_ & _ & _ & _ & H).
    apply (H Demo.returned). reflexivity.
Defined.

Lemma lower_ascii_twice (c : ascii) :
  Str.lower_ascii (Str.lower_ascii c) = Str.lower_ascii c.
Proof. destruct c as [[] [] [] [] [] [] [] []]; reflexivity. Qed.

Lemma toLowerCase_twice (s : string) :
  Str.toLowerCase (Str.toLowerCase s) = Str.toLowerCase s.
Proof.
  induction s as [|c s IH]; simpl; [reflexivity|].
  now rewrite lower_ascii_twice, IH.
Qed.

Section CaseFolding.

Import Str.

Local Open Scope string_scope.

Lemma allChars_complete (c : ascii) : In c allChars.
Proof.
  unfold allChars. rewrite <- (ascii_nat_embedding c).
  apply List.in_map, List.in_seq. pose proof (nat_ascii_bounded c). lia.
Qed.

(** Two characters have the same lower-case form exactly when they are the
    same letter; checked on all pairs of characters. *)
Lemma sameLetter_lower (a b : ascii) :
  Spec.sameLetter a b = Ascii.eqb (lower_ascii a) (lower_ascii b).
Proof.
  assert (H : forallb
                (fun x => forallb
                   (fun y => Bool.eqb (Spec.sameLetter x y)
                               (Ascii.eqb (lower_ascii x) (lower_ascii y)))
                   allChars)
                allChars = true) by (vm_compute; reflexivity).
  rewrite List.forallb_forall in H. specialize (H a (allChars_complete a)).
  rewrite List.forallb_forall in H. specialize (H b (allChars_complete b)).
  now apply Bool.eqb_prop in H.
Qed.

Lemma sameText_lower (s t : string) :
  Spec.sameText s t = true <-> toLowerCase s = toLowerCase t.
Proof.
  revert t. induction s as [|a s IH]; intros [|b t]; simpl;
    try (split; [discriminate | discriminate]); [tauto|].
  rewrite andb_true_iff, sameLetter_lower, Ascii.eqb_eq, IH. split.
  - now intros [-> ->].
  - intros [= -> ->]. now split.
Qed.

Lemma toLowerCase_app (s t : string) :
  toLowerCase (s ++ t) = toLowerCase s ++ toLowerCase t.
Proof.
  induction s as [|a s IH]; [reflexivity|].
  change (String (lower_ascii a) (toLowerCase (s ++ t))
          = String (lower_ascii a) (toLowerCase s ++ toLowerCase t)).
  now rewrite IH.
Qed.

(** A text whose lower-case form is a concatenation splits the same way. *)
Lemma toLowerCase_split (s x y : string) :
  toLowerCase s = x ++ y ->
  exists s1 s2, s = s1 ++ s2 /\ toLowerCase s1 = x /\ toLowerCase s2 = y.
Proof.
  revert s. induction x as [|c x IH]; intros s H.
  - exists "", s. now repeat split.
  - destruct s as [|a s]; [discriminate H|].
    change (String (lower_ascii a) (toLowerCase s) = String c (x ++ y)) in H.
    injection H as Hc Hs. destruct (IH s Hs) as (s1 & s2 & -> & H1 & H2).
    exists (String a s1), s2. repeat split; [|exact H2].
    simpl. now rewrite Hc, H1.
Qed.

(** [includes] on the lower-case forms finds the texts that occur in [hay]
    up to the case of their letters. *)
Lemma includes_up_to_case (hay needle : string) :
  includes (toLowerCase hay) (toLowerCase needle) = true <->
  exists pre u post,
    hay = pre ++ u ++ post /\ Spec.sameText u needle = true.
Proof.
  rewrite includes_occurs. split.
  - intros (pre' & post' & H).
    destruct (toLowerCase_split hay _ _ H) as (pre & rest & -> & _ & Hrest).
    destruct (toLowerCase_split rest _ _ Hrest) as (u & post & -> & Hu & _).
    exists pre, u, post. split; [reflexivity|]. now apply sameText_lower.
  - intros (pre & u & post & -> & Hu). apply sameText_lower in Hu.
    exists (toLowerCase pre), (toLowerCase post).
    now rewrite !toLowerCase_app, Hu.
Qed.

End CaseFolding.

(** X12. The search box ignores the case of letters and looks for a
    substring: a record passes the search test exactly when its name or its
    SKU holds, somewhere, a text that differs from the search text in the
    case of its letters only (a capital letter and its small form count as
    the same letter, for [A]..[Z] and for the accented letters of Latin-1).
    Two search texts that differ in case only give the same view. *)
Theorem search_is_case_insensitive_substring :
  forall (st : InventoryTable.State),
    (forall p,
        InventoryTable.matchesSearch st p = true <->
        (exists pre u post,
            name p = (pre ++ u ++ post)%string
            /\ Spec.sameText u (InventoryTable.searchTerm st) = true)
        \/ (exists pre u post,
               sku p = (pre ++ u ++ post)%string
               /\ Spec.sameText u (InventoryTable.searchTerm st) = true))
    /\ (forall st' products,
           InventoryTable.categoryFilter st' = InventoryTable.categoryFilter st ->
           InventoryTable.stockFilter st' = InventoryTable.stockFilter st ->
           Spec.sameText (InventoryTable.searchTerm st')
             (InventoryTable.searchTerm st) = true ->
           InventoryTable.filteredProducts st' products
           = InventoryTable.filteredProducts st products).
Proof.
  intros st. split.
  - intros p. unfold InventoryTable.matchesSearch.
    now rewrite orb_true_iff, !includes_up_to_case.
  - intros st' products Hc Hk Hs. apply sameText_lower in Hs.
    unfold InventoryTable.filteredProducts.
    apply List.filter_ext. intros p.
    unfold InventoryTable.matchesSearch, InventoryTable.matchesCategory,
      InventoryTable.matchesStock.
    now rewrite Hc, Hk, Hs.
Qed.

Lemma search_is_case_insensitive_substring_witness :
  InventoryTable.filteredProducts (Demo.searching "DeSk") Sample.catalog
  = InventoryTable.filteredProducts (Demo.searching "desk") Sample.catalog
  /\ InventoryTable.filteredProducts (Demo.searching Demo.smallE)
       (Demo.cafe :: Sample.catalog) = [Demo.cafe].
Proof.
  split.
  - destruct (search_is_case_insensitive_substring (Demo.searching "desk"))
      as (_ & H).
    apply (H (Demo.searching "DeSk") Sample.catalog); reflexivity.
  - vm_compute. reflexivity.
Defined.

(** ** The sparkline *)

Section SparklineFacts.

Import InventoryTable.

Local Open Scope Q_scope.

Lemma min_le_l a b : Num.min a b <= a.
Proof.
  unfold Num.min. destruct (Qle_bool a b) eqn:E; [apply Qle_refl|].
  apply Qlt_le_weak, Qnot_le_lt. intros H. apply Qle_bool_iff in H. congruence.
Qed.

Lemma min_le_r a b : Num.min a b <= b.
Proof.
  unfold Num.min. destruct (Qle_bool a b) eqn:E; [|apply Qle_refl].
  now apply Qle_bool_iff.
Qed.

Lemma max_ge_l a b : a <= Num.max a b.
Proof.
  unfold Num.max. destruct (Qle_bool a b) eqn:E; [|apply Qle_refl].
  now apply Qle_bool_iff.
Qed.

Lemma max_ge_r a b : b <= Num.max a b.
Proof.
  unfold Num.max. destruct (Qle_bool a b) eqn:E; [apply Qle_refl|].
  apply Qlt_le_weak, Qnot_le_lt. intros H. apply Qle_bool_iff in H. congruence.
Qed.

Lemma fold_min_le (l : list Q) (a : Q) :
  fold_left Num.min l a <= a /\ forall v, In v l -> fold_left Num.min l a <= v.
Proof.
  revert a. induction l as [|x l IH]; intros a; simpl.
  - split; [apply Qle_refl | intros v []].
  - destruct (IH (Num.min a x)) as [Ha Hl]. split.
    + eapply Qle_trans; [exact Ha | apply min_le_l].
    + intros v [<-|Hv]; [|now apply Hl].
      eapply Qle_trans; [exact Ha | apply min_le_r].
Qed.

Lemma fold_max_ge (l : list Q) (a : Q) :
  a <= fold_left Num.max l a /\ forall v, In v l -> v <= fold_left Num.max l a.
Proof.
  revert a. induction l as [|x l IH]; intros a; simpl.
  - split; [apply Qle_refl | intros v []].
  - destruct (IH (Num.max a x)) as [Ha Hl]. split.
    + eapply Qle_trans; [apply max_ge_l | exact Ha].
    + intros v [<-|Hv]; [|now apply Hl].
      eapply Qle_trans; [apply max_ge_r | exact Ha].
Qed.

Lemma mathMin_le data v : In v data -> mathMin data <= v.
Proof.
  destruct data as [|d rest]; [intros []|]. simpl.
  destruct (fold_min_le rest d) as [Hd Hrest].
  intros [<-|Hv]; [exact Hd | now apply Hrest].
Qed.

Lemma mathMax_ge data v : In v data -> v <= mathMax data.
Proof.
  destruct data as [|d rest]; [intros []|]. simpl.
  destruct (fold_max_ge rest d) as [Hd Hrest].
  intros [<-|Hv]; [exact Hd | now apply Hrest].
Qed.

(** The divisor is positive and at least the spread of the data. *)
Lemma range_positive lo hi :
  lo <= hi -> 0 < Num.orElse (hi - lo) 1 /\ hi - lo <= Num.orElse (hi - lo) 1.
Proof.
  intros H. unfold Num.orElse. destruct (Qeq_bool (hi - lo) 0) eqn:E.
  - apply Qeq_bool_iff in E. split; [reflexivity|]. rewrite E. discriminate.
  - split; [|apply Qle_refl].
    assert (~ hi - lo == 0).
    { intros E'. apply Qeq_bool_iff in E'. congruence. }
    assert (0 <= hi - lo) by lra.
    apply Qnot_le_lt. intros H'. apply H0. now apply Qle_antisym.
Qed.

(** A value between the extremes is drawn between the top and bottom
    margins. *)
Lemma yOf_bounds lo hi v :
  lo <= v -> v <= hi ->
  2 <= yOf 28 lo (Num.orElse (hi - lo) 1) v <= 26.
Proof.
  intros Hlo Hhi. assert (Hlh : lo <= hi) by (eapply Qle_trans; eassumption).
  destruct (range_positive lo hi Hlh) as [Hpos Hspread].
  set (range := Num.orElse (hi - lo) 1) in *.
  assert (H0 : 0 <= (v - lo) / range).
  { apply Qle_shift_div_l; [exact Hpos | lra]. }
  assert (H1 : (v - lo) / range <= 1).
  { apply Qle_shift_div_r; [exact Hpos | lra]. }
  unfold yOf. set (t := (v - lo) / range) in *. lra.
Qed.

Lemma xOf_bounds (i n : nat) :
  (i < n)%nat -> (2 <= n)%nat ->
  0 <= inject_Z (Z.of_nat i) / (inject_Z (Z.of_nat n) - 1) * 100 <= 100.
Proof.
  intros Hi Hn.
  assert (Hd : 0 < inject_Z (Z.of_nat n) - 1).
  { unfold Qlt, Qminus, Qplus, Qopp, inject_Z. simpl Qnum. simpl Qden. lia. }
  assert (Hnum : 0 <= inject_Z (Z.of_nat i)).
  { unfold Qle, inject_Z. simpl Qnum. simpl Qden. lia. }
  assert (Hle : inject_Z (Z.of_nat i) <= inject_Z (Z.of_nat n) - 1).
  { unfold Qle, Qminus, Qplus, Qopp, inject_Z. simpl Qnum. simpl Qden. lia. }
  assert (H0 : 0 <= inject_Z (Z.of_nat i) / (inject_Z (Z.of_nat n) - 1)).
  { apply Qle_shift_div_l; [exact Hd | lra]. }
  assert (H1 : inject_Z (Z.of_nat i) / (inject_Z (Z.of_nat n) - 1) <= 1).
  { apply Qle_shift_div_r; [exact Hd | lra]. }
  set (t := inject_Z (Z.of_nat i) / (inject_Z (Z.of_nat n) - 1)) in *. lra.
Qed.

End SparklineFacts.

Section SparklineView.

Import InventoryTable.

Local Open Scope Q_scope.

Lemma fold_min_In (l : list Q) (a : Q) : In (fold_left Num.min l a) (a :: l).
Proof.
  revert a. induction l as [|x l IH]; intros a; simpl; [now left|].
  destruct (IH (Num.min a x)) as [H|H]; [|right; now right].
  assert (Hm : Num.min a x = a \/ Num.min a x = x).
  { unfold Num.min. destruct (Qle_bool a x); auto. }
  destruct Hm as [Hm|Hm]; [left | right; left]; rewrite <- H; now symmetry.
Qed.

Lemma fold_max_In (l : list Q) (a : Q) : In (fold_left Num.max l a) (a :: l).
Proof.
  revert a. induction l as [|x l IH]; intros a; simpl; [now left|].
  destruct (IH (Num.max a x)) as [H|H]; [|right; now right].
  assert (Hm : Num.max a x = a \/ Num.max a x = x).
  { unfold Num.max. destruct (Qle_bool a x); auto. }
  destruct Hm as [Hm|Hm]; [left | right; left]; rewrite <- H; now symmetry.
Qed.

Lemma Sparkline_polyline data :
  (2 <= length data)%nat ->
  Sparkline data
  = Polyline
      (if Num.ltb (nth (length data - 1) data 0) (nth 0 data 0) then "#f43f5e"
       else if Num.gtb (nth (length data - 1) data 0) (nth 0 data 0) then "#10b981"
       else "#64748b")%string
      (imap (fun i val =>
               (inject_Z (Z.of_nat i) / (inject_Z (Z.of_nat (length data)) - 1) * 100,
                yOf 28 (mathMin data)
                  (Num.orElse (mathMax data - mathMin data) 1) val))
            data)
      (100, yOf 28 (mathMin data) (Num.orElse (mathMax data - mathMin data) 1)
              (nth (length data - 1) data 0)).
Proof.
  intros H. unfold Sparkline.
  destruct (Nat.ltb_spec (length data) 2) as [Hlt|_]; [lia|]. reflexivity.
Qed.

Lemma last_value_In data :
  (2 <= length data)%nat -> In (nth (length data - 1) data 0) data.
Proof. intros H. apply List.nth_In. lia. Qed.

End SparklineView.

(** X15. A sparkline of two or more values stays inside its drawing: it has
    one point per value, every point lies between 0 and 100 across and
    between 2 and 26 down, the first point is at the left edge, the last one
    at the right edge, and the dot is drawn on the last point. *)
Theorem sparkline_stays_in_box :
  forall data : list Q,
    2 <= length data ->
    exists color points circle,
      InventoryTable.Sparkline data = InventoryTable.Polyline color points circle
      /\ length points = length data
      /\ (forall x y, In (x, y) points ->
            (0 <= x <= 100)%Q /\ (2 <= y <= 26)%Q)
      /\ (exists x y, points !! 0%nat = Some (x, y) /\ (x == 0)%Q)
      /\ (exists x, points !! (length data - 1)%nat = Some (x, snd circle)
                    /\ (x == 100)%Q)
      /\ (fst circle == 100)%Q.
Proof.
  intros data Hlen. rewrite (Sparkline_polyline data Hlen).
  do 3 eexists. split; [reflexivity|]. split; [apply length_imap|].
  split; [|split; [|split]].
  - intros x y Hin. apply list_elem_of_In, elem_of_lookup_imap in Hin
      as (i & v & [= -> ->] & Hv).
    split.
    + apply xOf_bounds; [|exact Hlen]. now apply lookup_lt_Some in Hv.
    + apply list_elem_of_lookup_2, list_elem_of_In in Hv.
      apply yOf_bounds; [now apply mathMin_le | now apply mathMax_ge].
  - destruct (lookup_lt_is_Some_2 data 0%nat) as [v Hv]; [lia|].
    do 2 eexists. rewrite list_lookup_imap, Hv. split; [reflexivity|].
    unfold Qdiv. simpl inject_Z. ring.
  - destruct (lookup_lt_is_Some_2 data (length data - 1)%nat) as [v Hv]; [lia|].
    eexists. rewrite list_lookup_imap, Hv. simpl. split.
    + rewrite (nth_lookup_Some _ _ _ _ Hv). reflexivity.
    + assert (E : (inject_Z (Z.of_nat (length data - 1))
                   == inject_Z (Z.of_nat (length data)) - 1)%Q).
      { unfold Qeq, Qminus, Qplus, Qopp, inject_Z. simpl Qnum. simpl Qden. lia. }
      assert (Hd : ~ (inject_Z (Z.of_nat (length data)) - 1 == 0)%Q).
      { unfold Qeq, Qminus, Qplus, Qopp, inject_Z. simpl Qnum. simpl Qden. lia. }
      rewrite E. field. exact Hd.
  - reflexivity.
Qed.

Lemma sparkline_stays_in_box_witness :
  exists color points circle,
    InventoryTable.Sparkline [8; 6; 5; 7; 5; 4; 4]%Q
    = InventoryTable.Polyline color points circle
    /\ length points = 7.
Proof.
  destruct (sparkline_stays_in_box [8; 6; 5; 7; 5; 4; 4]%Q)
    as (color & points & circle & H & Hl & _); [simpl; lia|].
  exists color, points, circle. split; [exact H | exact Hl].
Defined.

(** X16. A sparkline is replaced by the placeholder exactly when it has
    fewer than two values, as a row without a history has. Otherwise its
    colour follows the trend from the first to the last value: green when
    the last value is greater, red when it is smaller, grey when the two are
    equal. When all values are equal the divisor falls back to 1 and the
    line is flat, every point being drawn at height 26. *)
Theorem sparkline_colour_follows_trend :
  forall data : list Q,
    (length data < 2 <-> InventoryTable.Sparkline data = InventoryTable.NoHistory)
    /\ (forall p, history p = None ->
          InventoryTable.rowSparkline p = InventoryTable.NoHistory)
    /\ (2 <= length data ->
        exists color points circle,
          InventoryTable.Sparkline data = InventoryTable.Polyline color points circle
          /\ ((nth 0 data 0 < nth (length data - 1) data 0)%Q -> color = "#10b981")
          /\ ((nth (length data - 1) data 0 < nth 0 data 0)%Q -> color = "#f43f5e")
          /\ ((nth (length data - 1) data 0 == nth 0 data 0)%Q -> color = "#64748b")
          /\ ((forall v, In v data -> (v == nth 0 data 0)%Q) ->
              forall x y, In (x, y) points -> (y == 26)%Q)).
Proof.
  intros data. split; [|split].
  - unfold InventoryTable.Sparkline.
    destruct (Nat.ltb_spec (length data) 2); split; try reflexivity;
      try discriminate; lia.
  - intros p H. unfold InventoryTable.rowSparkline. now rewrite H.
  - intros Hlen. rewrite (Sparkline_polyline data Hlen).
    set (first := nth 0 data 0%Q). set (last := nth (length data - 1) data 0%Q).
    do 3 eexists. split; [reflexivity|]. split; [|split; [|split]].
    + intros H. destruct (Num.ltb last first) eqn:L.
      * apply ltb_lt in L. exfalso. exact (Qlt_irrefl _ (Qlt_trans _ _ _ H L)).
      * now rewrite (proj2 (gtb_lt last first) H).
    + intros H. now rewrite (proj2 (ltb_lt last first) H).
    + intros H. destruct (Num.ltb last first) eqn:L.
      * apply ltb_lt in L. rewrite H in L. exfalso. exact (Qlt_irrefl _ L).
      * destruct (Num.gtb last first) eqn:G; [|reflexivity].
        apply gtb_lt in G. rewrite H in G. exfalso. exact (Qlt_irrefl _ G).
    + intros Hflat x y Hin.
      apply list_elem_of_In, elem_of_lookup_imap in Hin as (i & v & [= -> ->] & Hv).
      apply list_elem_of_lookup_2, list_elem_of_In in Hv.
      assert (Hmin : (InventoryTable.mathMin data == first)%Q).
      { apply Hflat. destruct data as [|d rest]; [destruct Hv|].
        apply fold_min_In. }
      assert (Hmax : (InventoryTable.mathMax data == first)%Q).
      { apply Hflat. destruct data as [|d rest]; [destruct Hv|].
        apply fold_max_In. }
      assert (Hrange : Num.orElse (InventoryTable.mathMax data
                                   - InventoryTable.mathMin data) 1 = 1%Q).
      { unfold Num.orElse.
        rewrite (proj2 (Qeq_bool_iff _ _)); [reflexivity|].
        rewrite Hmin, Hmax. ring. }
      rewrite Hrange. unfold InventoryTable.yOf.
      rewrite (Hflat v Hv), Hmin. field.
Qed.

Lemma sparkline_colour_follows_trend_witness :
  exists color points circle,
    InventoryTable.Sparkline [8; 6; 5; 7; 5; 4; 4]%Q
    = InventoryTable.Polyline color points circle
    /\ color = "#f43f5e".
Proof.
  destruct (sparkline_colour_follows_trend [8; 6; 5; 7; 5; 4; 4]%Q)
    as (_ & _ & H).
  destruct H as (color & points & circle & Hs & _ & Hred & _); [simpl; lia|].
  exists color, points, circle. split; [exact Hs|]. apply Hred. reflexivity.
Defined.

(** ** The product form *)

Section Form.

Import ProductModal.

Lemma strOr_not_empty s d : d <> "" -> strOr s d <> "".
Proof.
  intros Hd. unfold strOr. destruct s as [x|]; [|exact Hd].
  unfold App.truthy. destruct (String.eqb x "") eqn:E; simpl; [exact Hd|].
  now apply String.eqb_neq.
Qed.

Lemma strOr_keeps x d : x <> "" -> strOr (Some x) d = x.
Proof.
  intros H. unfold strOr, App.truthy. apply String.eqb_neq in H. now rewrite H.
Qed.

Lemma numOrZero_same q : (numOrZero (Some q) == q)%Q.
Proof.
  unfold numOrZero, Num.orElse. destruct (Qeq_bool q 0) eqn:E; [|reflexivity].
  apply Qeq_bool_iff in E. now rewrite E.
Qed.

End Form.

Lemma handleSaveProduct_new_NoDup (product : Product) (prev : list Product) :
  NoDup (map id prev) -> ~ In (id product) (map id prev) ->
  NoDup (map id (App.handleSaveProduct None product prev)).
Proof.
  intros H Hfresh. unfold App.handleSaveProduct.
  rewrite List.map_app. apply NoDup_app. split; [exact H|]. split.
  - intros x Hx Hx'. simpl in Hx'. apply list_elem_of_In in Hx, Hx'.
    destruct Hx' as [<-|[]]. contradiction.
  - simpl. apply NoDup_singleton.
Qed.

(** X19. Whatever the form holds, the product it submits has a name and a
    SKU that are not empty ([Untitled] and [N/A] stand in for missing ones),
    carries the time of the submission as [lastUpdated] and has a history;
    it keeps the id of the product under edit when that id is not empty and
    takes the fresh identifier otherwise. *)
Theorem handleSubmit_fills_defaults :
  forall (initialProduct : option Product) (uuid now : string)
         (formData : ProductModal.FormData),
    let p := ProductModal.handleSubmit initialProduct uuid now formData in
    name p <> "" /\ sku p <> ""
    /\ lastUpdated p = now
    /\ history p <> None
    /\ (forall e, initialProduct = Some e -> id e <> "" -> id p = id e)
    /\ (forall e, initialProduct = Some e -> id e = "" -> id p = uuid)
    /\ (initialProduct = None -> id p = uuid)
    /\ (ProductModal.f_name formData = Some "" \/ ProductModal.f_name formData = None ->
        name p = "Untitled")
    /\ (ProductModal.f_sku formData = Some "" \/ ProductModal.f_sku formData = None ->
        sku p = "N/A").
Proof.
  intros initialProduct uuid now formData p. subst p. simpl.
  split; [now apply strOr_not_empty|]. split; [now apply strOr_not_empty|].
  split; [reflexivity|]. split; [discriminate|].
  split; [|split; [|split; [|split]]].
  - intros e -> He. exact (strOr_keeps (id e) uuid He).
  - intros e -> He. simpl. now rewrite He.
  - now intros ->.
  - now intros [->| ->].
  - now intros [->| ->].
Qed.

Lemma handleSubmit_fills_defaults_witness :
  id (ProductModal.handleSubmit (Some Sample.widget) "fresh" Sample.clickTime
        ProductModal.blank) = "w1"
  /\ name (ProductModal.handleSubmit (Some Sample.widget) "fresh" Sample.clickTime
             ProductModal.blank) = "Untitled"
  /\ id (ProductModal.handleSubmit None "fresh" Sample.clickTime
           ProductModal.blank) = "fresh".
Proof.
  split; [|split].
  - destruct (handleSubmit_fills_defaults (Some Sample.widget) "fresh"
                Sample.clickTime ProductModal.blank) as (_ & _ & _ & _ & H & _).
    apply (H Sample.widget); [reflexivity | discriminate].
  - destruct (handleSubmit_fills_defaults (Some Sample.widget) "fresh"
                Sample.clickTime ProductModal.blank)
      as (_ & _ & _ & _ & _ & _ & _ & H & _).
    apply H. left. reflexivity.
  - destruct (handleSubmit_fills_defaults None "fresh"
                Sample.clickTime ProductModal.blank)
      as (_ & _ & _ & _ & _ & _ & H & _).
    apply H. reflexivity.
Defined.

(** X20. Editing through the form. Opening the form on a product whose id,
    name and SKU are not empty and submitting it unchanged gives the same
    product with a new [lastUpdated]: every text field and the category are
    kept, the price and the quantity are the same numbers, and a missing
    history becomes the empty one. Whatever the form holds when it is
    submitted, the catalog keeps its ids and order, the submitted product
    stands wherever a record had the id of the product under edit, and each
    such record carries the time of the submission. *)
Theorem edit_through_form :
  forall (e : Product) (uuid now : string),
    id e <> "" ->
    (name e <> "" -> sku e <> "" ->
     let p := ProductModal.handleSubmit (Some e) uuid now
                (ProductModal.loadForm (Some e)) in
     id p = id e /\ name p = name e /\ sku p = sku e
     /\ category p = category e
     /\ (price p == price e)%Q /\ (quantity p == quantity e)%Q
     /\ description p = description e
     /\ lastUpdated p = now
     /\ history p = Some (default [] (history e)))
    /\ (forall (formData : ProductModal.FormData) (prev : list Product),
           let next := ProductModal.submit (Some e) uuid now formData prev in
           map id next = map id prev
           /\ (forall i : nat,
                  next !! i
                  = (fun q => if String.eqb (id q) (id e)
                              then ProductModal.handleSubmit (Some e) uuid now formData
                              else q) <$> prev !! i)
           /\ (forall q, In q next -> id q = id e -> lastUpdated q = now)).
Proof.
  intros e uuid now Hid. split.
  - intros Hname Hsku p. subst p.
    split; [exact (strOr_keeps (id e) uuid Hid)|].
    split; [exact (strOr_keeps (name e) "Untitled" Hname)|].
    split; [exact (strOr_keeps (sku e) "N/A" Hsku)|].
    split; [reflexivity|].
    split; [exact (numOrZero_same (price e))|].
    split; [exact (numOrZero_same (quantity e))|].
    split; [|split; [reflexivity|]].
    + change (ProductModal.strOr (Some (description e)) "" = description e).
      unfold ProductModal.strOr, App.truthy.
      destruct (String.eqb (description e) "") eqn:E; [|reflexivity].
      apply String.eqb_eq in E. now rewrite E.
    + simpl. now destruct (history e).
  - intros formData prev next. subst next. unfold ProductModal.submit.
    assert (Hsub : id (ProductModal.handleSubmit (Some e) uuid now formData) = id e).
    { exact (strOr_keeps (id e) uuid Hid). }
    split; [apply handleSaveProduct_edit_ids|]. split.
    + intros i. unfold App.handleSaveProduct. rewrite list_lookup_fmap.
      now rewrite Hsub.
    + intros q Hq Hqid. unfold App.handleSaveProduct in Hq.
      apply List.in_map_iff in Hq as (q0 & Hq0 & _). rewrite Hsub in Hq0.
      destruct (String.eqb (id q0) (id e)) eqn:E.
      * now subst q.
      * subst q0. apply String.eqb_neq in E. contradiction.
Qed.

Lemma edit_through_form_witness :
  lastUpdated (ProductModal.handleSubmit (Some Sample.widget) "fresh"
                 Sample.clickTime (ProductModal.loadForm (Some Sample.widget)))
  = Sample.clickTime
  /\ name (ProductModal.handleSubmit (Some Sample.widget) "fresh"
             Sample.clickTime (ProductModal.loadForm (Some Sample.widget)))
     = name Sample.widget.
Proof.
  destruct (edit_through_form Sample.widget "fresh" Sample.clickTime) as [H _];
    [discriminate|].
  destruct H as (_ & Hn & _ & _ & _ & _ & _ & Ht & _);
    [discriminate | discriminate |].
  split; [exact Ht | exact Hn].
Defined.

(** X21. Adding through the form. Submitting the form when no product is
    under edit puts one record after the records of the catalog; the record
    has the fresh identifier as its id and the time of the submission as
    [lastUpdated]; and when the identifier is the id of no record, a catalog
    with pairwise different ids stays one. *)
Theorem add_through_form :
  forall (uuid now : string) (formData : ProductModal.FormData)
         (prev : list Product),
    let next := ProductModal.submit None uuid now formData prev in
    (exists p, next = prev ++ [p] /\ id p = uuid /\ lastUpdated p = now)
    /\ (NoDup (map id prev) -> ~ In uuid (map id prev) -> NoDup (map id next)).
Proof.
  intros uuid now formData prev next. subst next. unfold ProductModal.submit.
  split.
  - eexists. split; [reflexivity|]. split; reflexivity.
  - intros Hnd Hfresh. now apply handleSaveProduct_new_NoDup.
Qed.

Lemma add_through_form_witness :
  NoDup (map id (ProductModal.submit None "fresh" Sample.clickTime
                   ProductModal.blank Sample.catalog)).
Proof.
  destruct (add_through_form "fresh" Sample.clickTime ProductModal.blank
              Sample.catalog) as [_ H].
  apply H.
  - apply (bool_decide_unpack _). vm_compute. exact I.
  - simpl. intros Hin.
    repeat (destruct Hin as [Hin|Hin]; [discriminate Hin|]). exact Hin.
Defined.

(** ** The text generation service *)

(** X22. The service functions never fail and never answer with an empty
    text: a rejected call gives the fixed failure text, a response without
    text or with an empty text gives the fixed placeholder, and any other
    response text is passed on as it is. The price suggestion is the parsed
    response when there is a text that parses, and the zero range with the
    reasoning [AI unavailable] in every other case. *)
Theorem service_fallbacks :
  forall (parse : string -> option GeminiService.Suggestion) (o : GeminiService.Outcome),
    GeminiService.generateProductDescription o <> ""
    /\ GeminiService.analyzeInventoryRisks o <> ""
    /\ (forall text, o = GeminiService.Resolved (Some text) -> text <> "" ->
          GeminiService.generateProductDescription o = text
          /\ GeminiService.analyzeInventoryRisks o = text)
    /\ (forall text s, o = GeminiService.Resolved (Some text) -> text <> "" ->
          parse text = Some s ->
          GeminiService.suggestPricing parse o = s)
    /\ ((forall text, o = GeminiService.Resolved (Some text) ->
           text = "" \/ parse text = None) ->
        GeminiService.suggestPricing parse o
        = {| GeminiService.min := 0; GeminiService.max := 0;
             GeminiService.reasoning := "AI unavailable" |}).
Proof.
  intros parse o. split; [|split; [|split; [|split]]].
  - destruct o as [|text]; [discriminate|]. now apply strOr_not_empty.
  - destruct o as [|text]; [discriminate|]. now apply strOr_not_empty.
  - intros text -> Hne. split; now apply strOr_keeps.
  - intros text s -> Hne Hp. unfold GeminiService.suggestPricing, App.truthy.
    apply String.eqb_neq in Hne. now rewrite Hne, Hp.
  - intros H. unfold GeminiService.suggestPricing.
    destruct o as [|[text|]]; try reflexivity.
    destruct (H text eq_refl) as [->|Hp]; [reflexivity|].
    rewrite Hp. now destruct (App.truthy text).
Qed.

Lemma service_fallbacks_witness :
  GeminiService.generateProductDescription
    (GeminiService.Resolved (Some "A sturdy lamp.")) = "A sturdy lamp."
  /\ GeminiService.suggestPricing (fun _ => None)
       (GeminiService.Resolved (Some "not json"))
     = {| GeminiService.min := 0; GeminiService.max := 0;
          GeminiService.reasoning := "AI unavailable" |}.
Proof.
  destruct (service_fallbacks (fun _ => None)
              (GeminiService.Resolved (Some "A sturdy lamp.")))
    as (_ & _ & H & _).
  destruct (H "A sturdy lamp." eq_refl) as [Hd _]; [discriminate|].
  split; [exact Hd|].
  destruct (service_fallbacks (fun _ => None)
              (GeminiService.Resolved (Some "not json")))
    as (_ & _ & _ & _ & H').
  apply H'. intros text _. now right.
Defined.

(** ** More on the table *)

Lemma beforeFirst_app (c : ascii) (date rest : string) :
  Str.occurrences c date = 0 ->
  Str.beforeFirst c (date ++ String c rest)%string = date.
Proof.
  induction date as [|a date IH]; intros H.
  - change (Str.beforeFirst c (String c rest) = ""). simpl.
    now rewrite Ascii.eqb_refl.
  - change (Str.beforeFirst c (String a (date ++ String c rest)%string)
            = String a date).
    simpl in *. destruct (Ascii.eqb a c); [discriminate|].
    f_equal. now apply IH.
Qed.

(** X23. The exported file is named after the day of the export: when the
    time stamp of the export is a date, the letter T and the time of day,
    the file name is [lumina_inventory_export_], the date and [.csv]. *)
Theorem export_file_name :
  forall (numberToString : Q -> string) (date time : string)
         (filtered : list Product),
    Str.occurrences Str.letterT date = 0 ->
    filtered <> [] ->
    exists d,
      InventoryTable.handleExportCSV numberToString
        (date ++ String Str.letterT time)%string filtered = Some d
      /\ InventoryTable.download d
         = ("lumina_inventory_export_" ++ date ++ ".csv")%string.
Proof.
  intros numberToString date time filtered Hdate Hne.
  destruct filtered as [|p rest]; [congruence|].
  eexists. split; [reflexivity|]. simpl InventoryTable.download.
  now rewrite beforeFirst_app.
Qed.

Lemma export_file_name_witness :
  exists d,
    InventoryTable.handleExportCSV Sample.showInteger
      ("2024-06-15" ++ String Str.letterT "12:30:00.000Z")%string
      [Sample.widget] = Some d
    /\ InventoryTable.download d = "lumina_inventory_export_2024-06-15.csv".
Proof.
  apply (export_file_name Sample.showInteger "2024-06-15" "12:30:00.000Z"
           [Sample.widget]); [reflexivity | discriminate].
Defined.

(** X24. The select-all checkbox is never both checked and indeterminate.
    It is checked exactly when the view is not empty and every visible id is
    selected; it is indeterminate exactly when something is selected and the
    view is empty or shows a record that is not selected. *)
Theorem select_all_checkbox_flags :
  forall (filtered : list Product) (selected : gset string),
    (InventoryTable.selectAllChecked filtered selected
     && InventoryTable.isIndeterminate filtered selected = false)
    /\ (InventoryTable.selectAllChecked filtered selected = true <->
        filtered <> [] /\ forall p, In p filtered -> id p ∈ selected)
    /\ (InventoryTable.isIndeterminate filtered selected = true <->
        selected <> ∅
        /\ (filtered = [] \/ exists p, In p filtered /\ id p ∉ selected)).
Proof.
  intros filtered selected.
  unfold InventoryTable.selectAllChecked, InventoryTable.isIndeterminate.
  split; [|split].
  - destruct (InventoryTable.allFilteredSelected filtered selected); simpl;
      [now rewrite !andb_false_r | reflexivity].
  - rewrite andb_true_iff, allFilteredSelected_true, Nat.ltb_lt. split.
    + intros [H _]. exact H.
    + intros H. split; [exact H|]. destruct H as [Hne _].
      destruct filtered; [congruence | simpl; lia].
  - rewrite andb_true_iff, negb_true_iff, allFilteredSelected_false, Nat.ltb_lt.
    assert (0 < size selected <-> selected <> ∅).
    { pose proof (size_non_empty_iff selected) as Hs.
      rewrite leibniz_equiv_iff in Hs. rewrite <- Hs. lia. }
    tauto.
Qed.

(** ** How the handlers compose *)

Section Compose.

Import App.

Lemma filter_filter_and {A} (f g : A -> bool) (l : list A) :
  List.filter f (List.filter g l) = List.filter (fun x => g x && f x) l.
Proof.
  induction l as [|x l IH]; simpl; [reflexivity|].
  destruct (g x); simpl; [|exact IH]. destruct (f x); now rewrite IH.
Qed.

Lemma filter_swap {A} (f g : A -> bool) (l : list A) :
  List.filter f (List.filter g l) = List.filter g (List.filter f l).
Proof.
  rewrite !filter_filter_and. apply List.filter_ext. intros x. apply andb_comm.
Qed.

Lemma array_includes_app ids1 ids2 x :
  array_includes (ids1 ++ ids2) x
  = array_includes ids1 x || array_includes ids2 x.
Proof. unfold array_includes. apply List.existsb_app. Qed.

Lemma handleBatchDelete_app ids1 ids2 prev :
  handleBatchDelete true (ids1 ++ ids2) prev
  = handleBatchDelete true ids2 (handleBatchDelete true ids1 prev).
Proof.
  unfold handleBatchDelete. rewrite filter_filter_and.
  apply List.filter_ext. intros p.
  now rewrite array_includes_app, negb_orb.
Qed.

Lemma handleBatchDelete_single id_ prev :
  handleBatchDelete true [id_] prev = handleDeleteProduct true id_ prev.
Proof.
  unfold handleBatchDelete, handleDeleteProduct, array_includes.
  apply List.filter_ext. intros p. simpl. now rewrite orb_false_r.
Qed.

Lemma handleBatchLowStock_app ids1 ids2 prev :
  handleBatchLowStock ids2 (handleBatchLowStock ids1 prev)
  = handleBatchLowStock (ids1 ++ ids2) prev.
Proof.
  unfold handleBatchLowStock. rewrite List.map_map. apply List.map_ext.
  intros p. rewrite array_includes_app.
  destruct (array_includes ids1 (id p)) eqn:E1; simpl.
  - now destruct (array_includes ids2 (id p)).
  - reflexivity.
Qed.

End Compose.

(** X25. A batch delete is a sequence of single deletes: deleting the ids of
    an array one after the other, each delete confirmed, gives the catalog
    that one confirmed batch delete of the array gives. In particular a batch
    delete of no ids changes nothing, a batch delete of one id is the single
    delete, and two batch deletes in a row amount to one batch delete of
    both arrays. *)
Theorem batch_delete_is_repeated_delete :
  forall (ids : list string) (prev : list Product),
    fold_left (fun catalog id_ => App.handleDeleteProduct true id_ catalog) ids prev
    = App.handleBatchDelete true ids prev
    /\ App.handleBatchDelete true [] prev = prev
    /\ (forall id_, App.handleBatchDelete true [id_] prev
                    = App.handleDeleteProduct true id_ prev)
    /\ (forall more, App.handleBatchDelete true more (App.handleBatchDelete true ids prev)
                     = App.handleBatchDelete true (ids ++ more) prev).
Proof.
  intros ids prev.
  assert (Hnil : forall l, App.handleBatchDelete true [] l = l).
  { intros l. unfold App.handleBatchDelete. now apply filter_all. }
  split; [|split; [|split]].
  - revert prev. induction ids as [|i ids IH]; intros prev; cbn [fold_left].
    + symmetry. apply Hnil.
    + rewrite IH, <- handleBatchDelete_single.
      now rewrite <- handleBatchDelete_app.
  - apply Hnil.
  - intros id_. apply handleBatchDelete_single.
  - intros more. now rewrite handleBatchDelete_app.
Qed.

(** X26. Marking as low stock twice with the same ids is the same as marking
    once, marking with one array and then with another is the same as
    marking with both at once, and marking with no ids changes nothing. The
    action never raises the number of out-of-stock records and keeps the
    number of products. *)
Theorem batch_low_stock_composes :
  forall (ids : list string) (prev : list Product),
    App.handleBatchLowStock ids (App.handleBatchLowStock ids prev)
    = App.handleBatchLowStock ids prev
    /\ (forall more,
           App.handleBatchLowStock more (App.handleBatchLowStock ids prev)
           = App.handleBatchLowStock (ids ++ more) prev)
    /\ App.handleBatchLowStock [] prev = prev
    /\ outOfStockItems (App.stats (App.handleBatchLowStock ids prev))
       <= outOfStockItems (App.stats prev)
    /\ totalProducts (App.stats (App.handleBatchLowStock ids prev))
       = totalProducts (App.stats prev).
Proof.
  intros ids prev. split; [|split; [|split; [|split]]].
  - rewrite handleBatchLowStock_app. unfold App.handleBatchLowStock.
    apply List.map_ext. intros p. rewrite array_includes_app.
    now destruct (array_includes ids (id p)).
  - intros more. apply handleBatchLowStock_app.
  - unfold App.handleBatchLowStock. simpl. apply List.map_id.
  - rewrite !outOfStockItems_unfold. unfold App.handleBatchLowStock.
    induction prev as [|p l IH]; simpl; [lia|].
    destruct (array_includes ids (id p)).
    + change (App.isOut (with_quantity p 5)) with false.
      destruct (App.isOut p); simpl; lia.
    + destruct (App.isOut p); simpl; lia.
  - simpl. unfold App.handleBatchLowStock. apply length_map.
Qed.

(** X27. The table's view follows the catalog: the view of the catalog after
    a delete or a batch delete is the old view with the same records
    deleted; filtering a view again with the same filters changes nothing;
    and a view never has more rows than the catalog has products. *)
Theorem view_commutes_with_delete :
  forall (st : InventoryTable.State) (products : list Product),
    (forall c id_,
        InventoryTable.filteredProducts st (App.handleDeleteProduct c id_ products)
        = App.handleDeleteProduct c id_ (InventoryTable.filteredProducts st products))
    /\ (forall c ids,
           InventoryTable.filteredProducts st (App.handleBatchDelete c ids products)
           = App.handleBatchDelete c ids (InventoryTable.filteredProducts st products))
    /\ InventoryTable.filteredProducts st (InventoryTable.filteredProducts st products)
       = InventoryTable.filteredProducts st products
    /\ length (InventoryTable.filteredProducts st products) <= length products.
Proof.
  intros st products. unfold InventoryTable.filteredProducts.
  split; [|split; [|split]].
  - intros [] id_; [apply filter_swap | reflexivity].
  - intros [] ids; [apply filter_swap | reflexivity].
  - apply filter_twice.
  - apply filter_length_le.
Qed.
